(** * The request authentication gate and the college soft delete

    A shallow embedding of
    - [app/middleware/auth_middleware.py] ([PUBLIC_PATHS],
      [AuthMiddleware.dispatch]),
    - [app/services/admin/college_service.py] ([create_college],
      [list_colleges], [get_college], [update_college], [delete_college]),
    - [app/services/admin/course_file_service.py] ([upload_course_file],
      [list_course_files]), and
    - [get_admin_courses_for_college], which both service files have,
    with the Python values and builtins these functions rely on.

    Conventions.
    - A Python [str] is a [string] holding its UTF-8 bytes.  Prefixes,
      splitting at a space and equality are the same on the bytes as on
      the characters; [int] reads the characters back.
    - Code that may raise lives in the error monad [py]; [Raise e] is an
      exception leaving the function.
    - [decode_access_token] ([app/core/jwt.py]) is a collaborator of the
      middleware and a variable of every section that mentions it; so are
      the object store behind [upload_file_to_s3] and the comparisons the
      database makes in [WHERE] and [ORDER BY].
    - A request carries the outcome of reading [request.url.path], which
      may raise; a query by primary key goes through the database driver
      ([Sql.Driver]), which may refuse to bind the id. *)

From Stdlib Require Import ZArith String Ascii List Bool.
From Stdlib Require Import Floats.SpecFloat.
From Stdlib Require Import DecimalString DecimalZ.
From stdpp Require Import gmap sorting.
Import ListNotations.

Local Open Scope string_scope.
Local Open Scope Z_scope.
Set Warnings "-register-all".

(* ================================================================== *)
(** * Part I: definitions *)
(* ================================================================== *)

(** ** Python values, exceptions and the builtins the sources call *)

Module Py.

(** The exception classes that can show up in the two functions.  The first
    three are [jose.exceptions.JWTError] and its two subclasses;
    [HTTPException] is FastAPI's; [OtherException] stands for an instance of
    any class outside these (for example a key store that cannot be
    reached). *)
Inductive exn : Type :=
| JWTError
| ExpiredSignatureError
| JWTClaimsError
| TypeError
| ValueError
| OverflowError
| IndexError
| AttributeError
| HTTPException (status_code : Z) (detail : string)
| OtherException (name : string).

(** [isinstance(e, JWTError)]: what [except JWTError] catches. *)
Definition isinstance_JWTError (e : exn) : bool :=
  match e with
  | JWTError | ExpiredSignatureError | JWTClaimsError => true
  | _ => false
  end.

(** The error monad. *)
Inductive py (A : Type) : Type :=
| Return (a : A)
| Raise (e : exn).
Arguments Return {A} a.
Arguments Raise {A} e.

Definition bind {A B : Type} (m : py A) (k : A -> py B) : py B :=
  match m with
  | Return a => k a
  | Raise e => Raise e
  end.

#[global] Instance py_ret : MRet py := @Return.
#[global] Instance py_bind : MBind py := fun A B k m => bind m k.

(** The values a decoded token, a JSON document or a column can hold:
    [None], [bool], [int], [float], [str], [list] and a [dict] with string
    keys (in insertion order). *)
Inductive pyval : Type :=
| PNone
| PBool (b : bool)
| PInt (n : Z)
| PFloat (f : spec_float)
| PStr (s : string)
| PList (l : list pyval)
| PDict (d : list (string * pyval)).

(** [bool(v)], as [not v] and [if v] see it. *)
Definition truthy (v : pyval) : bool :=
  match v with
  | PNone => false
  | PBool b => b
  | PInt n => negb (n =? 0)
  | PFloat (S754_zero _) => false
  | PFloat _ => true
  | PStr s => negb (String.eqb s "")
  | PList l => negb (Nat.eqb (List.length l) 0)
  | PDict d => negb (Nat.eqb (List.length d) 0)
  end.

(** [s.startswith(p)]. *)
Fixpoint startswith (s p : string) {struct p} : bool :=
  match p with
  | EmptyString => true
  | String b p' =>
      match s with
      | EmptyString => false
      | String a s' => Ascii.eqb a b && startswith s' p'
      end
  end.

(** [p in s] for two strings. *)
Fixpoint str_contains (s p : string) : bool :=
  startswith s p ||
  match s with
  | EmptyString => false
  | String _ s' => str_contains s' p
  end.

(** [s.split(sep, 1)] for a one-character separator: cut at the first
    occurrence of [sep], if there is one. *)
Fixpoint partition1 (sep : ascii) (s : string) : option (string * string) :=
  match s with
  | EmptyString => None
  | String c s' =>
      if Ascii.eqb c sep then Some (EmptyString, s')
      else match partition1 sep s' with
           | Some (a, b) => Some (String c a, b)
           | None => None
           end
  end.

Definition split1 (s : string) (sep : ascii) : list string :=
  match partition1 sep s with
  | Some (a, b) => [a; b]
  | None => [s]
  end.

(** [l[i]] for [0 <= i]. *)
Definition getitem {A : Type} (l : list A) (i : nat) : py A :=
  match nth_error l i with
  | Some x => Return x
  | None => Raise IndexError
  end.

(** [s.lower()] on ASCII letters. *)
Definition lower_ascii (c : ascii) : ascii :=
  let n := N_of_ascii c in
  if ((65 <=? n) && (n <=? 90))%N then ascii_of_N (n + 32) else c.

Fixpoint lower (s : string) : string :=
  match s with
  | EmptyString => EmptyString
  | String c s' => String (lower_ascii c) (lower s')
  end.

(** First binding of a key in a dict. *)
Fixpoint lookup (key : string) (d : list (string * pyval)) : option pyval :=
  match d with
  | [] => None
  | (k, v) :: d' => if String.eqb k key then Some v else lookup key d'
  end.

(** [key in v], where [key] is a string. *)
Definition contains (key : string) (v : pyval) : py bool :=
  match v with
  | PDict d =>
      Return (match lookup key d with Some _ => true | None => false end)
  | PList l =>
      Return (existsb (fun x => match x with
                                | PStr s => String.eqb s key
                                | _ => false
                                end) l)
  | PStr s => Return (str_contains s key)
  | PNone | PBool _ | PInt _ | PFloat _ => Raise TypeError
  end.

(** [v.get(key, default)]: only a dict has the method. *)
Definition get (v : pyval) (key : string) (default : pyval) : py pyval :=
  match v with
  | PDict d =>
      Return (match lookup key d with Some x => x | None => default end)
  | _ => Raise AttributeError
  end.

(** *** [int(v)] *)

Definition is_digit (c : ascii) : bool :=
  let n := N_of_ascii c in ((48 <=? n) && (n <=? 57))%N.

Definition digit_value (c : ascii) : Z := Z.of_N (N_of_ascii c) - 48.

(** The ASCII characters [int] skips around a number: tab, LF, VT, FF, CR
    and space.  The separators 0x1c to 0x1f are whitespace for [str.strip]
    but not for [int]. *)
Definition is_int_space (c : ascii) : bool :=
  let n := N_of_ascii c in
  (((9 <=? n) && (n <=? 13)) || (n =? 32))%N.

Fixpoint skip_spaces (s : string) : string :=
  match s with
  | EmptyString => EmptyString
  | String c s' => if is_int_space c then skip_spaces s' else s
  end.

(** Read digits, with single underscores between them.  [prev_us] says
    that the previous character was an underscore; the result is the value
    read, the number of digits and the unread rest. *)
Fixpoint scan_digits (prev_us : bool) (acc : Z) (nd : nat) (s : string)
  : option (Z * nat * string) :=
  match s with
  | EmptyString => if prev_us then None else Some (acc, nd, EmptyString)
  | String c s' =>
      if is_digit c then
        scan_digits false (10 * acc + digit_value c) (S nd) s'
      else if Ascii.eqb c "_" then
        if prev_us then None else scan_digits true acc nd s'
      else
        if prev_us then None else Some (acc, nd, s)
  end.

(** [sys.get_int_max_str_digits()], at its default. *)
Definition int_max_str_digits : nat := 4300.

(** An optional sign in front of the digits. *)
Definition split_sign (s : string) : bool * string :=
  match s with
  | String c r =>
      if Ascii.eqb c "+" then (false, r)
      else if Ascii.eqb c "-" then (true, r)
      else (false, s)
  | EmptyString => (false, s)
  end.

(** The parser behind [int(s)], in base 10, on ASCII text: spaces, sign,
    digits (which may not start with an underscore), spaces, and nothing
    else. *)
Definition int_of_ascii (s : string) : py Z :=
  let '(neg, s2) := split_sign (skip_spaces s) in
  if startswith s2 "_" then Raise ValueError
  else
    match scan_digits false 0 0%nat s2 with
    | None => Raise ValueError
    | Some (v, nd, rest) =>
        if Nat.eqb nd 0 then Raise ValueError
        else if Nat.ltb int_max_str_digits nd then Raise ValueError
        else match skip_spaces rest with
             | EmptyString => Return (if neg then - v else v)
             | String _ _ => Raise ValueError
             end
    end.

(** Before it parses, [int] turns the text into ASCII: a character below
    127 stays, a Unicode space becomes a space, a Unicode decimal digit
    becomes the ASCII digit of its value, and anything else becomes "?",
    which the parser refuses.  A [str] is kept as its UTF-8 bytes;
    [code_points] reads the characters back.  Each character has one
    encoding, the shortest; a lone surrogate, which a [str] read from JSON
    can hold, is written in three bytes like its neighbours. *)
Definition continuation (c : ascii) : option N :=
  let n := N_of_ascii c in
  if ((128 <=? n) && (n <? 192))%N then Some (n - 128)%N else None.

(** The code point [cp], read from a sequence whose code points lie
    between [lo] and [hi], in front of the rest. *)
Definition code_point (lo hi cp : N) (rest : option (list N))
  : option (list N) :=
  if ((lo <=? cp) && (cp <=? hi))%N then cons cp <$> rest else None.

Fixpoint code_points (s : string) : option (list N) :=
  match s with
  | EmptyString => Some []
  | String b0 s1 =>
      let n0 := N_of_ascii b0 in
      if (n0 <? 128)%N then cons n0 <$> code_points s1
      else if (n0 <? 192)%N then None
      else if (n0 <? 224)%N then
        match s1 with
        | String b1 s2 =>
            match continuation b1 with
            | Some n1 =>
                code_point 0x80 0x7ff ((n0 - 192) * 64 + n1)%N
                           (code_points s2)
            | None => None
            end
        | EmptyString => None
        end
      else if (n0 <? 240)%N then
        match s1 with
        | String b1 (String b2 s3) =>
            match continuation b1, continuation b2 with
            | Some n1, Some n2 =>
                code_point 0x800 0xffff
                           ((n0 - 224) * 4096 + n1 * 64 + n2)%N
                           (code_points s3)
            | _, _ => None
            end
        | _ => None
        end
      else if (n0 <? 248)%N then
        match s1 with
        | String b1 (String b2 (String b3 s4)) =>
            match continuation b1, continuation b2, continuation b3 with
            | Some n1, Some n2, Some n3 =>
                code_point 0x10000 0x10ffff
                  ((n0 - 240) * 262144 + n1 * 4096 + n2 * 64 + n3)%N
                  (code_points s4)
            | _, _, _ => None
            end
        | _ => None
        end
      else None
  end.

(** The spaces beyond ASCII. *)
Definition unicode_space (cp : N) : bool :=
  ((cp =? 0x85) || (cp =? 0xa0) || (cp =? 0x1680) ||
   ((0x2000 <=? cp) && (cp <=? 0x200a)) ||
   (cp =? 0x2028) || (cp =? 0x2029) || (cp =? 0x202f) ||
   (cp =? 0x205f) || (cp =? 0x3000))%N.

(** The digit zero of every block of decimal digits beyond ASCII
    (Unicode 14.0, the tables of CPython 3.11); the nine code points after
    a zero are the digits one to nine. *)
Definition decimal_zeros : list N :=
  [ 0x660; 0x6f0; 0x7c0; 0x966; 0x9e6; 0xa66; 0xae6; 0xb66; 0xbe6;
    0xc66; 0xce6; 0xd66; 0xde6; 0xe50; 0xed0; 0xf20; 0x1040; 0x1090;
    0x17e0; 0x1810; 0x1946; 0x19d0; 0x1a80; 0x1a90; 0x1b50; 0x1bb0;
    0x1c40; 0x1c50; 0xa620; 0xa8d0; 0xa900; 0xa9d0; 0xa9f0; 0xaa50;
    0xabf0; 0xff10; 0x104a0; 0x10d30; 0x11066; 0x110f0; 0x11136;
    0x111d0; 0x112f0; 0x11450; 0x114d0; 0x11650; 0x116c0; 0x11730;
    0x118e0; 0x11950; 0x11c50; 0x11d50; 0x11da0; 0x16a60; 0x16ac0;
    0x16b50; 0x1d7ce; 0x1d7d8; 0x1d7e2; 0x1d7ec; 0x1d7f6; 0x1e140;
    0x1e2f0; 0x1e950; 0x1fbf0 ]%N.

Fixpoint decimal_in (zeros : list N) (cp : N) : option N :=
  match zeros with
  | [] => None
  | z :: zs =>
      if ((z <=? cp) && (cp <? z + 10))%N then Some (cp - z)%N
      else decimal_in zs cp
  end.

Definition to_ascii (cp : N) : ascii :=
  if (cp <? 127)%N then ascii_of_N cp
  else if unicode_space cp then " "%char
  else match decimal_in decimal_zeros cp with
       | Some d => ascii_of_N (48 + d)
       | None => "?"%char
       end.

Definition ascii_text (s : string) : option string :=
  (fun cps => string_of_list_ascii (map to_ascii cps)) <$> code_points s.

(** [int(s)] for a string. *)
Definition int_of_str (s : string) : py Z :=
  match ascii_text s with
  | Some text => int_of_ascii text
  | None => Raise ValueError
  end.

(** [int(f)] for a float: truncation towards zero. *)
Definition int_of_float (f : spec_float) : py Z :=
  match f with
  | S754_zero _ => Return 0
  | S754_infinity _ => Raise OverflowError
  | S754_nan => Raise ValueError
  | S754_finite s m e =>
      let a := Z.shiftl (Z.pos m) e in
      Return (if s then - a else a)
  end.

Definition int (v : pyval) : py Z :=
  match v with
  | PInt n => Return n
  | PBool b => Return (if b then 1 else 0)
  | PFloat f => int_of_float f
  | PStr s => int_of_str s
  | PNone | PList _ | PDict _ => Raise TypeError
  end.

(** *** Vocabulary for statements about [int] *)

Fixpoint all_chars (f : ascii -> bool) (s : string) : bool :=
  match s with
  | EmptyString => true
  | String c s' => f c && all_chars f s'
  end.

(** The characters that [int] leaves as they are. *)
Definition is_plain (c : ascii) : bool := (N_of_ascii c <? 127)%N.

(** The number a string of decimal digits denotes, read after [acc]. *)
Fixpoint decimal_from (acc : Z) (s : string) : Z :=
  match s with
  | EmptyString => acc
  | String c s' => decimal_from (10 * acc + digit_value c) s'
  end.

Definition decimal (s : string) : Z := decimal_from 0 s.

(** A string that does not begin with a digit or an underscore: where the
    scan of the digits stops. *)
Definition stops (rest : string) : Prop :=
  match rest with
  | EmptyString => True
  | String c _ => is_digit c = false /\ Ascii.eqb c "_" = false
  end.

(** What may follow a digit in an integer literal: nothing, a digit, or
    one underscore and a digit, and so on.  The second string collects the
    digits. *)
Inductive digit_tail : string -> string -> Prop :=
| tail_nil : digit_tail EmptyString EmptyString
| tail_digit (c : ascii) (t ds : string) :
    is_digit c = true -> digit_tail t ds ->
    digit_tail (String c t) (String c ds)
| tail_sep (c : ascii) (t ds : string) :
    is_digit c = true -> digit_tail t ds ->
    digit_tail (String "_" (String c t)) (String c ds).

(** [int_literal text n]: the ASCII text is an integer literal of value
    [n]: spaces, an optional sign, a digit and its tail with at most
    [int_max_str_digits] digits in all, and spaces. *)
Definition int_literal (text : string) (n : Z) : Prop :=
  exists (pre sign : string) (c : ascii) (t ds post : string),
    text = pre ++ sign ++ String c t ++ post /\
    all_chars is_int_space pre = true /\
    all_chars is_int_space post = true /\
    is_digit c = true /\ digit_tail t ds /\
    (String.length (String c ds) <= int_max_str_digits)%nat /\
    (((sign = EmptyString \/ sign = "+") /\ n = decimal (String c ds)) \/
     (sign = "-" /\ n = - decimal (String c ds))).

(** [int_value v n]: the value [v] denotes the integer [n].  An integer
    denotes itself, a boolean 1 or 0, a finite float its integer part, a
    string the value of the literal it spells once its Unicode spaces and
    digits are written in ASCII.  Nothing else denotes an integer. *)
Inductive int_value : pyval -> Z -> Prop :=
| value_int (n : Z) : int_value (PInt n) n
| value_true : int_value (PBool true) 1
| value_false : int_value (PBool false) 0
| value_zero (s : bool) : int_value (PFloat (S754_zero s)) 0
| value_float_up (s : bool) (m : positive) (e : Z) :
    0 <= e ->
    int_value (PFloat (S754_finite s m e))
              (if s then - (Z.pos m * 2 ^ e) else Z.pos m * 2 ^ e)
| value_float_down (s : bool) (m : positive) (e : Z) :
    e < 0 ->
    int_value (PFloat (S754_finite s m e))
              (if s then - (Z.pos m / 2 ^ (- e)) else Z.pos m / 2 ^ (- e))
| value_str (s text : string) (n : Z) :
    ascii_text s = Some text -> int_literal text n ->
    int_value (PStr s) n.

End Py.

Export Py.


(** ** [app/middleware/auth_middleware.py] *)

Module AuthMiddleware.

(** What the middleware reads and writes of a request: [request.method],
    [request.url.path], the header list (as the server hands it over, with
    lower-case field names) and the attribute [request.state.user], which
    is unset ([None]) on a request that comes in.

    [url_path] is what reading [request.url.path] gives.  Starlette puts
    the URL together from the scheme, the Host header and the path of the
    request, and splits it when the path is read: the read returns the
    path component, or raises [ValueError] when the URL does not split
    (a Host header that opens a bracket and does not close it). *)
Record Request : Type := {
  method : string;
  url_path : py string;
  headers : list (string * string);
  state_user : option pyval
}.

(** [request.state.user = u]. *)
Definition set_state_user (request : Request) (u : pyval) : Request :=
  {| method := method request;
     url_path := url_path request;
     headers := headers request;
     state_user := Some u |}.

(** [request.headers.get(key)]: field names compare without case, and the
    first field of that name wins. *)
Fixpoint find_header (key : string) (hs : list (string * string))
  : option string :=
  match hs with
  | [] => None
  | (k, v) :: hs' => if String.eqb k key then Some v else find_header key hs'
  end.

Definition headers_get (request : Request) (key : string) : option string :=
  find_header (lower key) (headers request).

(** How [dispatch] ends when it raises nothing: it either hands the request
    to the rest of the application ([return await call_next(request)]) or
    answers itself with a [JSONResponse] whose body is
    [{"detail": detail}]. *)
Inductive reply : Type :=
| CallNext (request : Request)
| JSONResponse (status_code : Z) (detail : string).

Definition HTTP_401_UNAUTHORIZED : Z := 401.

Definition PUBLIC_PATHS : list string :=
  [ "/api/auth"; "/docs"; "/redoc"; "/openapi.json"; "/health" ].

(** [any(path.startswith(p) for p in PUBLIC_PATHS)]. *)
Definition is_public (path : string) : bool :=
  existsb (fun p => startswith path p) PUBLIC_PATHS.

(** [not auth_header or not auth_header.startswith("Bearer ")]. *)
Definition no_bearer (auth_header : option string) : bool :=
  match auth_header with
  | None => true
  | Some h => negb (truthy (PStr h)) || negb (startswith h "Bearer ")
  end.

(** [auth_header.split(" ", 1)[1]]. *)
Definition token_of (auth_header : option string) : py string :=
  match auth_header with
  | Some h => getitem (split1 h " ") 1
  | None => Raise AttributeError
  end.

(** [not payload or "sub" not in payload]. *)
Definition bad_payload (payload : pyval) : py bool :=
  if negb (truthy payload) then mret true
  else b ← contains "sub" payload; mret (negb b).

(** The dict stored in [request.state.user]; the entries are evaluated in
    the order they are written. *)
Definition user_context (payload : pyval) : py pyval :=
  sub ← get payload "sub" PNone;
  id ← int sub;
  role ← get payload "role" (PStr "USER");
  permissions ← get payload "permissions" (PList []);
  mret (PDict [("id", PInt id); ("role", role); ("permissions", permissions)]).

Section Dispatch.

(** [app.core.jwt.decode_access_token]: returns the claims or raises. *)
Variable decode_access_token : string -> py pyval.

(** The part of [dispatch] from the [try] on. *)
Definition authenticate (request : Request) (token : string) : py reply :=
  match decode_access_token token with
  | Raise e =>
      if isinstance_JWTError e
      then mret (JSONResponse HTTP_401_UNAUTHORIZED "Invalid or expired token")
      else Raise e
  | Return payload =>
      bad ← bad_payload payload;
      if (bad : bool)
      then mret (JSONResponse HTTP_401_UNAUTHORIZED "Invalid token payload")
      else
        user ← user_context payload;
        mret (CallNext (set_state_user request user))
  end.

Definition dispatch (request : Request) : py reply :=
  path ← url_path request;
  let method := method request in
  if String.eqb method "OPTIONS" then mret (CallNext request)
  else if is_public path then mret (CallNext request)
  else
    let auth_header := headers_get request "Authorization" in
    if no_bearer auth_header
    then mret (JSONResponse HTTP_401_UNAUTHORIZED "Authentication required")
    else
      token ← token_of auth_header;
      authenticate request token.

End Dispatch.

(** A request is protected when its path can be read and neither bypass
    applies. *)
Definition protected (request : Request) : Prop :=
  method request <> "OPTIONS" /\
  exists path, url_path request = Return path /\ is_public path = false.

End AuthMiddleware.

(** ** Queries by primary key *)

Module Sql.

(** What the database driver does with an integer given as a query
    parameter: it binds the integers of its integer type and raises
    [bind_error] on any other. *)
Record Driver : Type := {
  can_bind : Z -> bool;
  bind_error : exn
}.

(** [select(T).where(T.id == id)], first row or [None].  The rows of a
    table have ids of the integer type of the database, so a row that is
    there is found.  For an id that is not there the query comes back
    empty when the driver can bind the id, and raises when it cannot. *)
Definition select_by_id {A : Type} (driver : Driver) (table : gmap Z A)
           (id : Z) : py (option A) :=
  match table !! id with
  | Some row => Return (Some row)
  | None =>
      if can_bind driver id then Return None
      else Raise (bind_error driver)
  end.

(** The ids of the rows of a table are ids the driver binds: the database
    gave them out. *)
Definition keys_bound {A : Type} (driver : Driver) (table : gmap Z A)
  : Prop :=
  forall id, is_Some (table !! id) -> can_bind driver id = true.

(** The driver of SQLite: signed integers of 64 bits, and [OverflowError]
    beyond them. *)
Definition sqlite : Driver :=
  {| can_bind := fun n => (- 2 ^ 63 <=? n) && (n <? 2 ^ 63);
     bind_error := OverflowError |}.

End Sql.

(** ** [app/services/admin/college_service.py] *)

Module AdminCollegeService.

(** A row of the [College] table.  The columns are those [create_college]
    fills in and [list_colleges] orders by; their declaration
    ([app/models/models.py]) is not part of the sources at hand, so every
    column holds a Python value.  The primary key [id] is the key of the
    table below. *)
Record College : Type := {
  name : pyval;
  code : pyval;
  description : pyval;
  email : pyval;
  phone : pyval;
  website : pyval;
  city : pyval;
  state : pyval;
  country : pyval;
  established_year : pyval;
  is_active : pyval;
  created_at : pyval
}.

(** [college.is_active = v]. *)
Definition set_is_active (college : College) (v : pyval) : College :=
  {| name := name college;
     code := code college;
     description := description college;
     email := email college;
     phone := phone college;
     website := website college;
     city := city college;
     state := state college;
     country := country college;
     established_year := established_year college;
     is_active := v;
     created_at := created_at college |}.

(** [select(College).where(College.id == college_id)], first row or
    [None]. *)
Definition get_college (driver : Sql.Driver) (db : gmap Z College)
           (college_id : Z) : py (option College) :=
  Sql.select_by_id driver db college_id.

(** The result and the committed table.  Nothing is committed when the
    function raises. *)
Definition delete_college (driver : Sql.Driver) (db : gmap Z College)
           (college_id : Z) : py unit * gmap Z College :=
  match get_college driver db college_id with
  | Raise e => (Raise e, db)
  | Return None => (Raise (HTTPException 404 "College not found"), db)
  | Return (Some college) =>
      if negb (truthy (is_active college))
      then (Raise (HTTPException 404 "College not found"), db)
      else (Return tt,
            <[college_id := set_is_active college (PBool false)]> db)
  end.

(** *** The other operations of the service *)

(** The attributes of a [CollegeCreate] body that [create_college] reads. *)
Record CollegeCreate : Type := {
  payload_name : pyval;
  payload_code : pyval;
  payload_description : pyval;
  payload_email : pyval;
  payload_phone : pyval;
  payload_website : pyval;
  payload_city : pyval;
  payload_state : pyval;
  payload_country : pyval;
  payload_established_year : pyval
}.

(** [College(name=payload.name, ..., is_active=True)], with the value the
    database gives [created_at]. *)
Definition new_college (payload : CollegeCreate) (now : pyval) : College :=
  {| name := payload_name payload;
     code := payload_code payload;
     description := payload_description payload;
     email := payload_email payload;
     phone := payload_phone payload;
     website := payload_website payload;
     city := payload_city payload;
     state := payload_state payload;
     country := payload_country payload;
     established_year := payload_established_year payload;
     is_active := PBool true;
     created_at := now |}.

(** The names of the columns. *)
Definition College_columns : list string :=
  [ "name"; "code"; "description"; "email"; "phone"; "website"; "city";
    "state"; "country"; "established_year"; "is_active"; "created_at" ].

(** [getattr(college, field)] for a column. *)
Definition getattr (college : College) (field : string) : option pyval :=
  if String.eqb field "name" then Some (name college)
  else if String.eqb field "code" then Some (code college)
  else if String.eqb field "description" then Some (description college)
  else if String.eqb field "email" then Some (email college)
  else if String.eqb field "phone" then Some (phone college)
  else if String.eqb field "website" then Some (website college)
  else if String.eqb field "city" then Some (city college)
  else if String.eqb field "state" then Some (state college)
  else if String.eqb field "country" then Some (country college)
  else if String.eqb field "established_year"
       then Some (established_year college)
  else if String.eqb field "is_active" then Some (is_active college)
  else if String.eqb field "created_at" then Some (created_at college)
  else None.

(** [setattr(college, field, value)] as the row sees it: the column of that
    name takes the value; a name that is no column leaves the row alone. *)
Definition setattr (college : College) (field : string) (value : pyval)
  : College :=
  let pick (column : string) (old : pyval) :=
    if String.eqb field column then value else old in
  {| name := pick "name" (name college);
     code := pick "code" (code college);
     description := pick "description" (description college);
     email := pick "email" (email college);
     phone := pick "phone" (phone college);
     website := pick "website" (website college);
     city := pick "city" (city college);
     state := pick "state" (state college);
     country := pick "country" (country college);
     established_year := pick "established_year" (established_year college);
     is_active := pick "is_active" (is_active college);
     created_at := pick "created_at" (created_at college) |}.

(** The loop [for field, value in update_data.items()] with its
    [setattr(college, field, value)]. *)
Definition apply_updates (college : College)
           (update_data : list (string * pyval)) : College :=
  fold_left (fun c kv => setattr c (fst kv) (snd kv)) update_data college.

(** [update_college], given [payload.model_dump(exclude_unset=True)]: the
    fields the caller set, in order.  [CollegeUpdate] is not part of the
    sources at hand; the properties of this function are stated for updates
    whose fields are columns (the primary key is none). *)
Definition update_college (driver : Sql.Driver) (db : gmap Z College)
           (college_id : Z) (update_data : list (string * pyval))
  : py College * gmap Z College :=
  match get_college driver db college_id with
  | Raise e => (Raise e, db)
  | Return None => (Raise (HTTPException 404 "College not found"), db)
  | Return (Some college) =>
      let college' := apply_updates college update_data in
      (Return college', <[college_id := college']> db)
  end.

(** [College.is_active.is_(True)]. *)
Definition is_True (v : pyval) : bool :=
  match v with
  | PBool true => true
  | _ => false
  end.

Section Database.

(** [College.code == payload.code] as the database evaluates it (its
    collation decides which strings are equal). *)
Variable code_eq : pyval -> pyval -> bool.

(** The order of [created_at] values behind [ORDER BY created_at DESC]:
    [created_at_ge a b] when [a] is not before [b]. *)
Variable created_at_ge : pyval -> pyval -> bool.

(** [db.scalar(select(College).where(College.code == code))] finds a row. *)
Definition code_taken (db : gmap Z College) (c : pyval) : bool :=
  existsb (fun kc => code_eq (code (snd kc)) c) (map_to_list db).

(** [create_college].  The database supplies the primary key [new_id] of
    the row it inserts and its [created_at]; the function returns the
    refreshed row with its key. *)
Definition create_college (db : gmap Z College) (new_id : Z) (now : pyval)
           (payload : CollegeCreate)
  : py (Z * College) * gmap Z College :=
  if code_taken db (payload_code payload)
  then (Raise (HTTPException 400 "College with this code already exists"),
        db)
  else
    let college := new_college payload now in
    (Return (new_id, college), <[new_id := college]> db).

(** Rows in the order of [ORDER BY created_at DESC]; rows with the same
    [created_at] come in an order the database is free to choose. *)
Definition newest_first (a b : Z * College) : Prop :=
  created_at_ge (created_at (snd a)) (created_at (snd b)) = true.

#[local] Instance newest_first_dec (a b : Z * College)
  : Decision (newest_first a b).
Proof. unfold newest_first. apply _. Defined.

(** [list_colleges]: the active rows, newest first, each with its key. *)
Definition list_colleges (db : gmap Z College) : list (Z * College) :=
  merge_sort newest_first
    (List.filter (fun kc => is_True (is_active (snd kc))) (map_to_list db)).

(** No two rows have the same code, as the database compares codes. *)
Definition codes_unique (db : gmap Z College) : Prop :=
  forall i j ci cj,
    i <> j -> db !! i = Some ci -> db !! j = Some cj ->
    code_eq (code ci) (code cj) = false.

End Database.

End AdminCollegeService.

(** ** [app/services/admin/course_file_service.py] *)

Module AdminCourseFileService.

(** [str(n)] for an integer, as an f-string formats it. *)
Definition str_of_int (n : Z) : string :=
  NilZero.string_of_int (Z.to_int n).

(** [v[key]] for a string key: only a dict can be indexed by a string. *)
Definition subscript (v : pyval) (key : string) : py pyval :=
  match v with
  | PDict d =>
      match lookup key d with
      | Some x => Return x
      | None => Raise (OtherException "KeyError")
      end
  | _ => Raise TypeError
  end.

(** What the service reads of an [UploadFile], and the bytes it carries. *)
Record UploadFile : Type := {
  filename : option string;
  content_type : option string;
  body : string
}.

Definition of_str (s : option string) : pyval :=
  match s with
  | Some x => PStr x
  | None => PNone
  end.

Definition of_int (n : option Z) : pyval :=
  match n with
  | Some x => PInt x
  | None => PNone
  end.

(** A row of the [CourseFile] table, with the columns [upload_course_file]
    fills in and [list_course_files] orders by.  The primary key is the key
    of the table. *)
Record CourseFile : Type := {
  course_id : Z;
  file_name : pyval;
  file_title : pyval;
  file_description : pyval;
  duration_seconds : pyval;
  file_type : pyval;
  file_size : pyval;
  mime_type : pyval;
  file_url : pyval;
  is_published : pyval;
  download_allowed : pyval;
  created_at : pyval
}.

(** Step 3 of [upload_course_file]. *)
Definition detect_file_type (file : UploadFile) : string :=
  match content_type file with
  | Some ct =>
      if String.eqb ct "application/pdf" then "PDF"
      else if truthy (PStr ct) && startswith ct "video/" then "VIDEO"
      else "DOCUMENT"
  | None => "DOCUMENT"
  end.

(** [file_title or file.filename]. *)
Definition title_or_filename (title : option string) (file : UploadFile)
  : pyval :=
  if truthy (of_str title) then of_str title else of_str (filename file).

(** [f"Courses/{course_id}"]. *)
Definition folder_of (course : Z) : string :=
  "Courses/" ++ str_of_int course.

Section Storage.

(** The rows of the [Course] table; only their presence matters here. *)
Variable Course : Type.

(** The object store, and [app.core.s3.upload_file_to_s3]: it answers with
    a result or raises, and leaves the store in a new state. *)
Variable S3 : Type.
Variable upload_file_to_s3 : UploadFile -> string -> S3 -> py pyval * S3.

(** The order behind [ORDER BY created_at DESC]. *)
Variable created_at_ge : pyval -> pyval -> bool.

(** The driver that binds the course id in the first query. *)
Variable driver : Sql.Driver.

(** Step 4: the row built from the request and the answer of the store. *)
Definition new_course_file (course : Z) (file : UploadFile)
           (title description : option string) (duration : option Z)
           (s3_result now : pyval) : py CourseFile :=
  size ← subscript s3_result "file_size";
  mime ← subscript s3_result "content_type";
  url ← subscript s3_result "file_url";
  mret {| course_id := course;
          file_name := of_str (filename file);
          file_title := title_or_filename title file;
          file_description := of_str description;
          duration_seconds := of_int duration;
          file_type := PStr (detect_file_type file);
          file_size := size;
          mime_type := mime;
          file_url := url;
          is_published := PBool true;
          download_allowed := PBool true;
          created_at := now |}.

(** [upload_course_file].  The database supplies the key [new_id] of the
    row it inserts and its [created_at].  The result comes with the
    committed table and the state of the store. *)
Definition upload_course_file
           (courses : gmap Z Course) (files : gmap Z CourseFile) (s3 : S3)
           (new_id : Z) (now : pyval)
           (course : Z) (file : UploadFile)
           (title description : option string) (duration : option Z)
  : py (Z * CourseFile) * gmap Z CourseFile * S3 :=
  match Sql.select_by_id driver courses course with
  | Raise e => (Raise e, files, s3)
  | Return None =>
      (Raise (HTTPException 404 "Course not found"), files, s3)
  | Return (Some _) =>
      match upload_file_to_s3 file (folder_of course) s3 with
      | (Raise e, s3') => (Raise e, files, s3')
      | (Return s3_result, s3') =>
          match new_course_file course file title description duration
                                s3_result now with
          | Raise e => (Raise e, files, s3')
          | Return course_file =>
              (Return (new_id, course_file),
               <[new_id := course_file]> files, s3')
          end
      end
  end.

Definition newest_file_first (a b : Z * CourseFile) : Prop :=
  created_at_ge (created_at (snd a)) (created_at (snd b)) = true.

#[local] Instance newest_file_first_dec (a b : Z * CourseFile)
  : Decision (newest_file_first a b).
Proof. unfold newest_file_first. apply _. Defined.

(** [list_course_files]: the files of a course, newest first. *)
Definition list_course_files (files : gmap Z CourseFile) (course : Z)
  : list (Z * CourseFile) :=
  merge_sort newest_file_first
    (List.filter (fun kf => Z.eqb (course_id (snd kf)) course)
                 (map_to_list files)).

End Storage.

End AdminCourseFileService.

(** ** [get_admin_courses_for_college], as both service files have it *)

Module CollegeAdminCourses.
Import AdminCourseFileService.

(** The names bound at the top of a module: what its [import] lines and its
    [class] statement bind.  A function body finds its global names
    there. *)
Definition college_service_globals : list string :=
  [ "select"; "AsyncSession"; "HTTPException"; "status"; "College";
    "CollegeCreate"; "CollegeUpdate"; "AdminCollegeService" ].

Definition course_file_service_globals : list string :=
  [ "UploadFile"; "HTTPException"; "AsyncSession"; "select"; "Course";
    "CourseFile"; "upload_file_to_s3"; "AdminCourseFileService" ].

(** Looking a global name up when the body runs. *)
Definition load_global (globals : list string) (name : string) : py unit :=
  if existsb (String.eqb name) globals then Return tt
  else Raise (OtherException "NameError").

(** The columns of [CollegeAdmin] and [Course] that the function reads;
    the primary key of a course is its key in the table. *)
Record CollegeAdmin : Type := {
  admin_user_id : pyval;
  admin_college_id : pyval
}.

Record Course : Type := {
  college_id : pyval;
  title : pyval;
  category : pyval;
  level : pyval;
  description : pyval;
  thumbnail_url : pyval;
  duration_hours : pyval;
  expected_completion_days : pyval;
  created_at : pyval;
  is_active : pyval;
  is_published : pyval
}.

(** [result.scalar_one_or_none()]. *)
Definition scalar_one_or_none {A : Type} (rows : list A) : py (option A) :=
  match rows with
  | [] => Return None
  | [r] => Return (Some r)
  | _ :: _ :: _ => Raise (OtherException "MultipleResultsFound")
  end.

(** One entry of ["courses"] in the response. *)
Definition course_entry (kc : Z * Course) : pyval :=
  let course := snd kc in
  PDict [ ("course_id", PInt (fst kc));
          ("title", title course);
          ("category", category course);
          ("level", level course);
          ("description", description course);
          ("thumbnail_url", thumbnail_url course);
          ("duration_hours", duration_hours course);
          ("expected_completion_days", expected_completion_days course);
          ("created_at", created_at course) ].

Section Query.

(** [column == value] as the database evaluates it. *)
Variable sql_eq : pyval -> pyval -> bool.

(** The order behind [ORDER BY created_at DESC]. *)
Variable created_at_ge : pyval -> pyval -> bool.

Definition newest_course_first (a b : Z * Course) : Prop :=
  created_at_ge (created_at (snd a)) (created_at (snd b)) = true.

#[local] Instance newest_course_first_dec (a b : Z * Course)
  : Decision (newest_course_first a b).
Proof. unfold newest_course_first. apply _. Defined.

(** The second query: the courses of a college that are active and
    published ([== True] selects the rows whose flag is [True]), newest
    first. *)
Definition courses_of (courses : gmap Z Course) (college : pyval)
  : list (Z * Course) :=
  merge_sort newest_course_first
    (List.filter
       (fun kc => sql_eq (college_id (snd kc)) college
                  && AdminCollegeService.is_True (is_active (snd kc))
                  && AdminCollegeService.is_True (is_published (snd kc)))
       (map_to_list courses)).

(** The function, run in a module whose global names are [globals]. *)
Definition get_admin_courses_for_college (globals : list string)
           (admins : gmap Z CollegeAdmin) (courses : gmap Z Course)
           (college_admin_user : pyval) : py pyval :=
  _ ← load_global globals "select";
  _ ← load_global globals "CollegeAdmin";
  uid ← subscript college_admin_user "id";
  college_admin ←
    scalar_one_or_none
      (List.filter (fun ka => sql_eq (admin_user_id (snd ka)) uid)
                   (map_to_list admins));
  match college_admin with
  | None =>
      _ ← load_global globals "HTTPException";
      Raise (HTTPException 404 "College admin record not found")
  | Some ka =>
      let college := admin_college_id (snd ka) in
      _ ← load_global globals "select";
      _ ← load_global globals "Course";
      let rows := courses_of courses college in
      mret (PDict [ ("college_id", college);
                    ("total_courses", PInt (Z.of_nat (List.length rows)));
                    ("courses", PList (map course_entry rows)) ])
  end.

End Query.

End CollegeAdminCourses.

(** ** Sample inputs *)

Module Samples.
Import AuthMiddleware AdminCollegeService.

(** A verification primitive that knows a handful of tokens. *)
Definition sample_decode (token : string) : py pyval :=
  if String.eqb token "admin" then
    Return (PDict [("sub", PStr "42"); ("role", PStr "ADMIN");
                   ("permissions", PList [PStr "x"])])
  else if String.eqb token "seven" then Return (PDict [("sub", PStr "7")])
  else if String.eqb token "empty" then Return (PDict [])
  else if String.eqb token "nosub" then Return (PDict [("role", PStr "ADMIN")])
  else if String.eqb token "badsub" then Return (PDict [("sub", PStr "abc")])
  else if String.eqb token "down" then Raise (OtherException "ConnectionError")
  else if String.eqb token "expired" then Raise ExpiredSignatureError
  else Raise JWTError.

Definition sample_request (m p : string) (hs : list (string * string))
  : Request :=
  {| method := m; url_path := Return p; headers := hs;
     state_user := None |}.

Definition get_with (p token : string) : Request :=
  sample_request "GET" p [("authorization", "Bearer " ++ token)].

(** A primitive whose claims carry a boolean subject. *)
Definition flag_decode (token : string) : py pyval :=
  Return (PDict [("sub", PBool true)]).

(** A preflight request whose Host header opens a bracket: its URL does
    not split. *)
Definition preflight_bad_host : Request :=
  {| method := "OPTIONS"; url_path := Raise ValueError;
     headers := [("host", "[")]; state_user := None |}.

Definition sample_college (active : pyval) : College :=
  {| name := PStr "Hill College"; code := PStr "HC"; description := PNone;
     email := PStr "office@hill.example"; phone := PNone; website := PNone;
     city := PStr "Pune"; state := PStr "MH"; country := PStr "IN";
     established_year := PInt 1999; is_active := active;
     created_at := PStr "2024-01-01T00:00:00" |}.

Definition sample_db : gmap Z College :=
  <[1 := sample_college (PBool true)]>
    (<[2 := sample_college (PBool false)]> ∅).

End Samples.

Module ServiceSamples.
Import AdminCourseFileService CollegeAdminCourses.

(** A comparison of column values: equal strings, equal integers. *)
Definition same_value (a b : pyval) : bool :=
  match a, b with
  | PStr x, PStr y => String.eqb x y
  | PInt x, PInt y => Z.eqb x y
  | PNone, PNone => true
  | _, _ => false
  end.

(** An order on timestamps kept as integers. *)
Definition not_before (a b : pyval) : bool :=
  match a, b with
  | PInt x, PInt y => Z.leb y x
  | _, _ => true
  end.

Definition college (c : string) (active : bool) (at_time : Z)
  : AdminCollegeService.College :=
  {| AdminCollegeService.name := PStr "College";
     AdminCollegeService.code := PStr c;
     AdminCollegeService.description := PNone;
     AdminCollegeService.email := PNone;
     AdminCollegeService.phone := PNone;
     AdminCollegeService.website := PNone;
     AdminCollegeService.city := PStr "Pune";
     AdminCollegeService.state := PStr "MH";
     AdminCollegeService.country := PStr "IN";
     AdminCollegeService.established_year := PInt 1999;
     AdminCollegeService.is_active := PBool active;
     AdminCollegeService.created_at := PInt at_time |}.

Definition payload (c : string) : AdminCollegeService.CollegeCreate :=
  {| AdminCollegeService.payload_name := PStr "College";
     AdminCollegeService.payload_code := PStr c;
     AdminCollegeService.payload_description := PNone;
     AdminCollegeService.payload_email := PNone;
     AdminCollegeService.payload_phone := PNone;
     AdminCollegeService.payload_website := PNone;
     AdminCollegeService.payload_city := PStr "Pune";
     AdminCollegeService.payload_state := PStr "MH";
     AdminCollegeService.payload_country := PStr "IN";
     AdminCollegeService.payload_established_year := PInt 1999 |}.

Definition colleges : gmap Z AdminCollegeService.College :=
  <[1 := college "HC" true 10]> (<[2 := college "LK" true 20]> ∅).

(** An object store that keeps what it is given, one that cannot be
    reached, one whose answer lacks the size and the content type, and one
    that answers [None]. *)
Definition upload_ok (file : UploadFile) (folder : string)
           (s3 : list (string * string))
  : py pyval * list (string * string) :=
  (Return (PDict
     [("file_size", PInt (Z.of_nat (String.length (body file))));
      ("content_type", of_str (content_type file));
      ("file_url", PStr folder)]),
   (folder, body file) :: s3).

Definition upload_down (file : UploadFile) (folder : string)
           (s3 : list (string * string))
  : py pyval * list (string * string) :=
  (Raise (OtherException "EndpointConnectionError"), s3).

Definition upload_short (file : UploadFile) (folder : string)
           (s3 : list (string * string))
  : py pyval * list (string * string) :=
  (Return (PDict [("file_url", PStr folder)]), (folder, body file) :: s3).

Definition upload_none (file : UploadFile) (folder : string)
           (s3 : list (string * string))
  : py pyval * list (string * string) :=
  (Return PNone, (folder, body file) :: s3).

Definition slides : UploadFile :=
  {| filename := Some "slides.pdf";
     content_type := Some "application/pdf";
     body := "%PDF-1.7" |}.

Definition course_table : gmap Z unit := <[7 := tt]> ∅.

Definition slides_row : CourseFile :=
  {| course_id := 7; file_name := PStr "slides.pdf";
     file_title := PStr "Week 1"; file_description := PNone;
     duration_seconds := PNone; file_type := PStr "PDF";
     file_size := PInt 8; mime_type := PStr "application/pdf";
     file_url := PStr "Courses/7";
     AdminCourseFileService.is_published := PBool true;
     download_allowed := PBool true;
     AdminCourseFileService.created_at := PInt 5 |}.

Definition file_table : gmap Z CourseFile := <[1 := slides_row]> ∅.

Definition admins : gmap Z CollegeAdmin :=
  <[1 := {| admin_user_id := PInt 42; admin_college_id := PInt 1 |}]> ∅.

Definition course_rows : gmap Z Course :=
  <[5 := {| college_id := PInt 1; title := PStr "Logic";
            category := PStr "Math"; level := PStr "Basic";
            description := PNone; thumbnail_url := PNone;
            duration_hours := PInt 12; expected_completion_days := PInt 30;
            CollegeAdminCourses.created_at := PInt 3;
            is_active := PBool true; is_published := PBool true |}]> ∅.

End ServiceSamples.

(* ================================================================== *)
(** * Part II: properties *)
(* ================================================================== *)

Import AuthMiddleware.

(** ** Strings *)

Section StringFacts.

Lemma startswith_app (p t : string) : startswith (p ++ t) p = true.
Proof.
  induction p as [|c p IH]; simpl; [reflexivity|].
  now rewrite Ascii.eqb_refl, IH.
Qed.

Lemma startswith_inv (s p : string) :
  startswith s p = true -> exists t, s = p ++ t.
Proof.
  revert s; induction p as [|c p IH]; intros s H; simpl in *.
  - now exists s.
  - destruct s as [|a s]; [discriminate|].
    apply andb_prop in H as [Hc Hs].
    apply Ascii.eqb_eq in Hc; subst a.
    destruct (IH _ Hs) as [t ->]. now exists t.
Qed.

(** [startswith] decides "[s] is [p] followed by something". *)
Lemma startswith_iff (s p : string) :
  startswith s p = true <-> exists t, s = p ++ t.
Proof.
  split; [apply startswith_inv|].
  intros [t ->]; apply startswith_app.
Qed.

Lemma startswith_false (s p : string) :
  (forall t, s <> p ++ t) -> startswith s p = false.
Proof.
  intros H. destruct (startswith s p) eqn:E; [|reflexivity].
  apply startswith_inv in E as [t ->]. now destruct (H t).
Qed.

Lemma is_public_iff (path : string) :
  is_public path = true <->
  exists p t, In p PUBLIC_PATHS /\ path = p ++ t.
Proof.
  unfold is_public. rewrite existsb_exists. split.
  - intros (p & Hin & Hp). apply startswith_inv in Hp as [t ->].
    now exists p, t.
  - intros (p & t & Hin & ->). exists p. split; [assumption|].
    apply startswith_app.
Qed.

Lemma lookup_None_iff (key : string) (d : list (string * pyval)) :
  lookup key d = None <-> forall v, ~ In (key, v) d.
Proof.
  induction d as [|[k v] d IH]; simpl.
  - split; [intros _ v []|reflexivity].
  - destruct (String.eqb_spec k key) as [->|Hne].
    + split; [discriminate|]. intros H. destruct (H v). now left.
    + rewrite IH. split.
      * intros H w [Heq|Hin]; [congruence|]. exact (H w Hin).
      * intros H w Hin. apply (H w). now right.
Qed.

Lemma token_of_bearer (t : string) :
  token_of (Some ("Bearer " ++ t)) = Return t.
Proof. reflexivity. Qed.

Lemma no_bearer_bearer (t : string) :
  no_bearer (Some ("Bearer " ++ t)) = false.
Proof. reflexivity. Qed.

End StringFacts.

(** ** [int] on strings *)

Section IntFacts.

Lemma digit_is_plain (c : ascii) :
  is_digit c = true ->
  is_int_space c = false /\ Ascii.eqb c "+" = false /\
  Ascii.eqb c "-" = false /\ Ascii.eqb c "_" = false.
Proof.
  destruct c as [[] [] [] [] [] [] [] []]; vm_compute; intros H;
    solve [discriminate H | repeat split].
Qed.

Lemma digit_below_127 (c : ascii) : is_digit c = true -> is_plain c = true.
Proof.
  destruct c as [[] [] [] [] [] [] [] []]; vm_compute; intros H;
    solve [discriminate H | reflexivity].
Qed.

Lemma scan_digits_digits (s : string) :
  forall acc nd,
    all_chars is_digit s = true ->
    scan_digits false acc nd s
    = Some (decimal_from acc s, (nd + String.length s)%nat, EmptyString).
Proof.
  induction s as [|c s IH]; intros acc nd H; simpl in *.
  - now rewrite Nat.add_0_r.
  - apply andb_prop in H as [Hc Hs]. rewrite Hc, (IH _ _ Hs).
    now rewrite Nat.add_succ_r.
Qed.

Lemma int_of_ascii_digits (s : string) :
  s <> EmptyString ->
  all_chars is_digit s = true ->
  (String.length s <= int_max_str_digits)%nat ->
  int_of_ascii s = Return (decimal s).
Proof.
  intros Hne Hall Hlen. destruct s as [|c s]; [congruence|].
  pose proof Hall as Hall'. simpl in Hall'.
  apply andb_prop in Hall' as [Hc _].
  destruct (digit_is_plain c Hc) as (Hsp & Hplus & Hminus & Hus).
  unfold int_of_ascii. simpl skip_spaces. rewrite Hsp.
  unfold split_sign. rewrite Hplus, Hminus.
  simpl startswith. rewrite Hus. simpl andb.
  rewrite (scan_digits_digits _ 0 0%nat Hall).
  simpl String.length. simpl Nat.add. simpl Nat.eqb.
  apply Nat.ltb_ge in Hlen. simpl String.length in Hlen. rewrite Hlen.
  reflexivity.
Qed.

Lemma all_chars_mono (f g : ascii -> bool) (s : string) :
  (forall c, f c = true -> g c = true) ->
  all_chars f s = true -> all_chars g s = true.
Proof.
  intros Hfg. induction s as [|c s IH]; simpl; [reflexivity|].
  intros H. apply andb_prop in H as [Hc Hs].
  now rewrite (Hfg _ Hc), (IH Hs).
Qed.

(** Text below 127 is its own ASCII form. *)
Lemma ascii_text_plain (s : string) :
  all_chars is_plain s = true -> ascii_text s = Some s.
Proof.
  unfold ascii_text. induction s as [|c s IH]; [reflexivity|].
  simpl all_chars. intros H. apply andb_prop in H as [Hc Hs].
  specialize (IH Hs). unfold is_plain in Hc.
  cbn [code_points].
  assert ((N_of_ascii c <? 128)%N = true) as ->.
  { apply N.ltb_lt. apply N.ltb_lt in Hc. lia. }
  destruct (code_points s) as [cps|]; [|discriminate IH].
  simpl in *. injection IH as IH. rewrite IH.
  unfold to_ascii. now rewrite Hc, ascii_N_embedding.
Qed.

(** On a non-empty string of at most [int_max_str_digits] decimal digits,
    [int] is the decimal value. *)
Lemma int_of_str_digits (s : string) :
  s <> EmptyString ->
  all_chars is_digit s = true ->
  (String.length s <= int_max_str_digits)%nat ->
  int_of_str s = Return (decimal s).
Proof.
  intros Hne Hall Hlen. unfold int_of_str.
  rewrite ascii_text_plain.
  - now apply int_of_ascii_digits.
  - revert Hall. apply all_chars_mono, digit_below_127.
Qed.

Lemma skip_spaces_empty (s : string) :
  skip_spaces s = EmptyString <-> all_chars is_int_space s = true.
Proof.
  induction s as [|c s IH]; simpl; [tauto|].
  destruct (is_int_space c); [exact IH|]. split; discriminate.
Qed.

(** [int] on a string raises nothing but [ValueError]. *)
Lemma int_of_ascii_raises (s : string) (e : exn) :
  int_of_ascii s = Raise e -> e = ValueError.
Proof.
  unfold int_of_ascii.
  destruct (split_sign (skip_spaces s)) as [neg s2].
  destruct (startswith s2 "_"); [now intros [= <-]|].
  destruct (scan_digits false 0 0%nat s2) as [[[v nd] rest]|];
    [|now intros [= <-]].
  destruct (Nat.eqb nd 0); [now intros [= <-]|].
  destruct (Nat.ltb int_max_str_digits nd); [now intros [= <-]|].
  destruct (skip_spaces rest); [discriminate|now intros [= <-]].
Qed.

Lemma int_of_str_raises (s : string) (e : exn) :
  int_of_str s = Raise e -> e = ValueError.
Proof.
  unfold int_of_str. destruct (ascii_text s) as [text|].
  - apply int_of_ascii_raises.
  - now intros [= <-].
Qed.

(** *** The parser and the literals *)

Lemma append_cons (c : ascii) (a b : string) :
  (String c a ++ b)%string = String c (a ++ b).
Proof. reflexivity. Qed.

Lemma append_nil (b : string) : (EmptyString ++ b)%string = b.
Proof. reflexivity. Qed.

Lemma skip_spaces_split (s : string) :
  exists pre, s = (pre ++ skip_spaces s)%string /\
              all_chars is_int_space pre = true.
Proof.
  induction s as [|c s (pre & Hs & Hpre)]; [now exists EmptyString|].
  simpl. destruct (is_int_space c) eqn:E.
  - exists (String c pre). rewrite append_cons, <- Hs. simpl.
    now rewrite E.
  - now exists EmptyString.
Qed.

Lemma skip_spaces_app (pre x : string) :
  all_chars is_int_space pre = true ->
  match x with
  | EmptyString => True
  | String c _ => is_int_space c = false
  end ->
  skip_spaces (pre ++ x) = x.
Proof.
  intros Hpre Hx. induction pre as [|c pre IH].
  - rewrite append_nil. destruct x as [|c x]; [reflexivity|].
    simpl. now rewrite Hx.
  - simpl in Hpre. apply andb_prop in Hpre as [Hc Hpre].
    rewrite append_cons. simpl. rewrite Hc. now apply IH.
Qed.

Lemma split_sign_spec (s s2 : string) (neg : bool) :
  split_sign s = (neg, s2) ->
  exists sign, s = (sign ++ s2)%string /\
    ((neg = false /\ (sign = EmptyString \/ sign = "+")) \/
     (neg = true /\ sign = "-")).
Proof.
  destruct s as [|c r]; simpl.
  - intros [= <- <-]. exists EmptyString. tauto.
  - destruct (Ascii.eqb_spec c "+") as [->|Hp];
      [|destruct (Ascii.eqb_spec c "-") as [->|Hm]].
    + intros [= <- <-]. exists "+". tauto.
    + intros [= <- <-]. exists "-". tauto.
    + intros [= <- <-]. exists EmptyString. tauto.
Qed.

(** What a successful scan has read. *)
Lemma scan_digits_sound (s : string) :
  forall b acc nd v nd' rest,
    scan_digits b acc nd s = Some (v, nd', rest) ->
    exists t ds,
      s = (t ++ rest)%string /\ stops rest /\
      v = decimal_from acc ds /\ nd' = (nd + String.length ds)%nat /\
      if b then exists c t' ds',
                  t = String c t' /\ ds = String c ds' /\
                  is_digit c = true /\ digit_tail t' ds'
      else digit_tail t ds.
Proof.
  induction s as [|c s IH]; intros b acc nd v nd' rest; simpl.
  - destruct b; [discriminate|]. intros [= <- <- <-].
    exists EmptyString, EmptyString. repeat split; try constructor.
    simpl. lia.
  - destruct (is_digit c) eqn:Ed; [|destruct (Ascii.eqb_spec c "_") as [->|Hu]].
    + intros H. apply IH in H as (t & ds & -> & Hstop & -> & -> & Ht).
      simpl in Ht. exists (String c t), (String c ds).
      rewrite append_cons. split; [reflexivity|]. split; [exact Hstop|].
      split; [reflexivity|]. split; [simpl; lia|].
      destruct b.
      * now exists c, t, ds.
      * now constructor.
    + destruct b; [discriminate|]. intros H.
      apply IH in H as (t & ds & -> & Hstop & -> & -> & Ht).
      simpl in Ht. destruct Ht as (c & t' & ds' & -> & -> & Hc & Ht).
      exists (String "_" (String c t')), (String c ds').
      rewrite !append_cons. repeat split; try assumption.
      now constructor.
    + destruct b; [discriminate|]. intros [= <- <- <-].
      exists EmptyString, EmptyString. rewrite append_nil.
      repeat split; try constructor.
      * exact Ed.
      * now destruct (Ascii.eqb_spec c "_").
      * simpl. lia.
Qed.

(** What the scan makes of a tail followed by something it stops at. *)
Lemma scan_digits_complete (t ds rest : string) :
  digit_tail t ds -> stops rest ->
  forall acc nd,
    scan_digits false acc nd (t ++ rest)
    = Some (decimal_from acc ds, (nd + String.length ds)%nat, rest).
Proof.
  intros Ht Hstop. induction Ht as [|c t ds Hc Ht IH|c t ds Hc Ht IH];
    intros acc nd.
  - rewrite append_nil, Nat.add_0_r. destruct rest as [|c r]; [reflexivity|].
    simpl in *. destruct Hstop as [-> ->]. reflexivity.
  - rewrite append_cons. simpl. rewrite Hc, IH. do 3 f_equal. lia.
  - rewrite !append_cons. simpl.
    destruct (digit_is_plain c Hc) as (_ & _ & _ & Hus).
    rewrite Hc, IH. do 3 f_equal. lia.
Qed.

Lemma spaces_stop (post : string) :
  all_chars is_int_space post = true -> stops post.
Proof.
  destruct post as [|c post]; simpl; [trivial|].
  intros H. apply andb_prop in H as [Hc _]. revert Hc.
  destruct c as [[] [] [] [] [] [] [] []]; vm_compute;
    solve [discriminate | tauto].
Qed.

(** The parser accepts exactly the integer literals, with their value. *)
Lemma int_of_ascii_literal (text : string) (n : Z) :
  int_of_ascii text = Return n <-> int_literal text n.
Proof.
  split.
  - unfold int_of_ascii.
    destruct (skip_spaces_split text) as (pre & Htext & Hpre).
    destruct (split_sign (skip_spaces text)) as [neg s2] eqn:Hsign.
    apply split_sign_spec in Hsign as (sign & Hs1 & Hneg).
    destruct (startswith s2 "_") eqn:Hus; [discriminate|].
    destruct (scan_digits false 0 0%nat s2) as [[[v nd] rest]|] eqn:Hscan;
      [|discriminate].
    apply scan_digits_sound in Hscan
      as (t & ds & -> & Hstop & -> & -> & Ht).
    simpl in Ht. simpl Nat.add.
    destruct (Nat.eqb_spec (String.length ds) 0) as [|Hnd]; [discriminate|].
    destruct (Nat.ltb_spec int_max_str_digits (String.length ds))
      as [|Hmax]; [discriminate|].
    destruct (skip_spaces rest) eqn:Hrest; [|discriminate].
    apply skip_spaces_empty in Hrest. intros [= <-].
    inversion Ht as [|c t' ds' Hc Ht' E1 E2|c t' ds' Hc Ht' E1 E2];
      subst.
    + now destruct Hnd.
    + exists pre, sign, c, t', ds', rest. rewrite Htext, Hs1 at 1.
      repeat split; try assumption.
      destruct Hneg as [[-> Hsg]|[-> ->]]; [left|right]; tauto.
    + rewrite append_cons in Hus. simpl in Hus. discriminate Hus.
  - intros (pre & sign & c & t & ds & post & -> & Hpre & Hpost & Hc & Ht
            & Hlen & Hval).
    destruct (digit_is_plain c Hc) as (Hsp & Hplus & Hminus & Hus).
    unfold int_of_ascii.
    assert (exists neg,
              split_sign (sign ++ String c t ++ post) 
              = (neg, (String c t ++ post)%string) /\
              n = if neg then - decimal (String c ds)
                  else decimal (String c ds)) as (neg & Hsplit & ->).
    { destruct Hval as [[[-> | ->] ->]|[-> ->]].
      - exists false. rewrite append_nil, append_cons. simpl.
        now rewrite Hplus, Hminus.
      - now exists false.
      - now exists true. }
    rewrite skip_spaces_app; [|assumption|].
    2: { destruct Hval as [[[-> | ->] _]|[-> _]];
           rewrite ?append_nil, append_cons; [exact Hsp|reflexivity..]. }
    rewrite Hsplit, append_cons. simpl startswith. rewrite Hus.
    simpl andb. cbv iota. simpl scan_digits. rewrite Hc.
    rewrite (scan_digits_complete _ _ _ Ht (spaces_stop _ Hpost)).
    simpl Nat.add. simpl Nat.eqb. cbv iota.
    apply Nat.ltb_ge in Hlen. simpl String.length in Hlen. rewrite Hlen.
    apply skip_spaces_empty in Hpost. now rewrite Hpost.
Qed.

(** [int] raises [TypeError], [ValueError] or [OverflowError] only. *)
Lemma int_raises (v : pyval) (e : exn) :
  int v = Raise e -> e = TypeError \/ e = ValueError \/ e = OverflowError.
Proof.
  destruct v as [|b|n|f|s|l|d]; simpl; try discriminate;
    try (intros [= <-]; tauto).
  - destruct f; simpl; try discriminate; intros [= <-]; tauto.
  - intros H. apply int_of_str_raises in H. tauto.
Qed.

(** [int] accepts exactly the values that denote an integer, and returns
    the integer they denote. *)
Lemma int_denotes (v : pyval) (n : Z) : int v = Return n <-> int_value v n.
Proof.
  split.
  - destruct v as [|b|k|f|s|l|d]; simpl; try discriminate.
    + destruct b; intros [= <-]; constructor.
    + intros [= <-]. constructor.
    + destruct f as [sg|sg| |sg m e]; simpl; try discriminate.
      * intros [= <-]. constructor.
      * intros [= <-]. destruct (Z.le_gt_cases 0 e) as [He|He].
        -- rewrite Z.shiftl_mul_pow2 by assumption. now constructor.
        -- rewrite Z.shiftl_div_pow2 by lia. now constructor.
    + unfold int_of_str. destruct (ascii_text s) as [text|] eqn:Ht;
        [|discriminate].
      intros H. apply int_of_ascii_literal in H.
      exact (value_str _ _ _ Ht H).
  - intros H. destruct H; simpl; try reflexivity.
    + now rewrite Z.shiftl_mul_pow2.
    + now rewrite Z.shiftl_div_pow2 by lia.
    + unfold int_of_str. rewrite H. now apply int_of_ascii_literal.
Qed.

End IntFacts.

(** ** The builtins on concrete inputs *)

Section Evaluation.

Example int_plain : int (PStr "42") = Return 42.
Proof. reflexivity. Qed.

Example int_spaces_and_sign : int (PStr "  -42 ") = Return (-42).
Proof. reflexivity. Qed.

Example int_underscore : int (PStr "4_2") = Return 42.
Proof. reflexivity. Qed.

Example int_leading_zero : int (PStr "042") = Return 42.
Proof. reflexivity. Qed.

Example int_double_underscore : int (PStr "4__2") = Raise ValueError.
Proof. reflexivity. Qed.

Example int_outer_underscore :
  int (PStr "_42") = Raise ValueError /\ int (PStr "42_") = Raise ValueError.
Proof. split; reflexivity. Qed.

Example int_sign_then_space : int (PStr "+ 42") = Raise ValueError.
Proof. reflexivity. Qed.

Example int_inner_space : int (PStr "4 2") = Raise ValueError.
Proof. reflexivity. Qed.

Example int_empty :
  int (PStr "") = Raise ValueError /\ int (PStr "  ") = Raise ValueError.
Proof. split; reflexivity. Qed.

Example int_decimal_point : int (PStr "1.0") = Raise ValueError.
Proof. reflexivity. Qed.

(** Digits of other scripts count; a minus sign that is not "-" does
    not. *)
Example int_arabic_digits : int (PStr "٤٢") = Return 42.
Proof. reflexivity. Qed.

Example int_fullwidth_digits : int (PStr "-４２") = Return (-42).
Proof. reflexivity. Qed.

Example int_minus_sign : int (PStr "−3") = Raise ValueError.
Proof. reflexivity. Qed.

Example int_none : int PNone = Raise TypeError.
Proof. reflexivity. Qed.

Example int_bool : int (PBool true) = Return 1.
Proof. reflexivity. Qed.

(** -3.75 is -15 * 2^-2. *)
Example int_float : int (PFloat (S754_finite true 15 (-2))) = Return (-3).
Proof. reflexivity. Qed.

Example split_keeps_rest : split1 "Bearer a b " " " = ["Bearer"; "a b "].
Proof. reflexivity. Qed.

Example split_empty_token : split1 "Bearer " " " = ["Bearer"; ""].
Proof. reflexivity. Qed.

Example split_no_separator : split1 "Bearer" " " = ["Bearer"].
Proof. reflexivity. Qed.

Example header_name_case :
  headers_get (Samples.get_with "/x" "t") "Authorization"
  = Some "Bearer t".
Proof. reflexivity. Qed.

Example public_is_prefix_only :
  is_public "/api/authxyz" = true /\ is_public "/v1/docs" = false.
Proof. split; reflexivity. Qed.

End Evaluation.

(** ** The gate *)

Ltac py_simpl := unfold mbind, py_bind, mret, py_ret, bind; simpl.

Ltac not_options :=
  match goal with
  | H : method ?r <> "OPTIONS" |- _ =>
      destruct (String.eqb_spec (method r) "OPTIONS"); [contradiction|]
  end.

Ltac sample_protected :=
  split; [intros H; discriminate H | eexists; split; reflexivity].

Section GateFacts.

Variable decode_access_token : string -> py pyval.

Abbreviation dispatch := (dispatch decode_access_token).
Abbreviation authenticate := (authenticate decode_access_token).

(** The path is read first; the checks follow in their order. *)
Lemma dispatch_read (r : Request) :
  dispatch r
  = match url_path r with
    | Raise e => Raise e
    | Return path =>
        if String.eqb (method r) "OPTIONS" then Return (CallNext r)
        else if is_public path then Return (CallNext r)
        else if no_bearer (headers_get r "Authorization")
        then Return (JSONResponse 401 "Authentication required")
        else token ← token_of (headers_get r "Authorization");
             authenticate r token
    end.
Proof. unfold AuthMiddleware.dispatch. now destruct (url_path r). Qed.

Lemma dispatch_options (r : Request) (path : string) :
  method r = "OPTIONS" -> url_path r = Return path ->
  dispatch r = Return (CallNext r).
Proof. intros Hm Hp. now rewrite dispatch_read, Hp, Hm. Qed.

Lemma dispatch_public (r : Request) (path : string) :
  url_path r = Return path -> is_public path = true ->
  dispatch r = Return (CallNext r).
Proof.
  intros Hp H. rewrite dispatch_read, Hp, H.
  now destruct (String.eqb (method r) "OPTIONS").
Qed.

Lemma dispatch_unreadable (r : Request) (e : exn) :
  url_path r = Raise e -> dispatch r = Raise e.
Proof. intros H. now rewrite dispatch_read, H. Qed.

(** What the part before the verification step leaves to decide. *)
Lemma dispatch_protected (r : Request) :
  protected r ->
  dispatch r
  = if no_bearer (headers_get r "Authorization")
    then Return (JSONResponse 401 "Authentication required")
    else token ← token_of (headers_get r "Authorization");
         authenticate r token.
Proof.
  intros [Hm (path & Hpath & Hp)]. rewrite dispatch_read, Hpath. not_options.
  now rewrite Hp.
Qed.

Lemma dispatch_no_bearer (r : Request) :
  protected r ->
  no_bearer (headers_get r "Authorization") = true ->
  dispatch r
  = Return (JSONResponse HTTP_401_UNAUTHORIZED "Authentication required").
Proof. intros Hp H. now rewrite (dispatch_protected _ Hp), H. Qed.

(** With a bearer header, a protected request goes to the verification
    step with the rest of the header as the token. *)
Lemma dispatch_bearer (r : Request) (t : string) :
  protected r ->
  headers_get r "Authorization" = Some ("Bearer " ++ t) ->
  dispatch r = authenticate r t.
Proof.
  intros Hp H.
  rewrite (dispatch_protected _ Hp), H, no_bearer_bearer, token_of_bearer.
  reflexivity.
Qed.

Lemma no_bearer_false (a : option string) :
  no_bearer a = false -> exists t, a = Some ("Bearer " ++ t).
Proof.
  destruct a as [h|]; [|discriminate]. unfold no_bearer.
  intros H. apply orb_false_elim in H as [_ H].
  apply negb_false_iff, startswith_inv in H as [t ->]. now exists t.
Qed.

(** What [authenticate] does with claims that are a dict. *)
Lemma authenticate_dict (r : Request) (t : string)
      (d : list (string * pyval)) :
  decode_access_token t = Return (PDict d) ->
  authenticate r t
  = match lookup "sub" d with
    | None =>
        Return (JSONResponse HTTP_401_UNAUTHORIZED "Invalid token payload")
    | Some sub =>
        match int sub with
        | Raise e => Raise e
        | Return n =>
            Return (CallNext (set_state_user r (PDict
              [("id", PInt n);
               ("role", default (PStr "USER") (lookup "role" d));
               ("permissions",
                default (PList []) (lookup "permissions" d))])))
        end
    end.
Proof.
  intros H. unfold AuthMiddleware.authenticate. rewrite H.
  unfold bad_payload, user_context.
  destruct d as [|kv d]; [reflexivity|].
  change (truthy (PDict (kv :: d))) with true.
  remember (kv :: d) as d0 eqn:Hd0. clear Hd0.
  unfold mbind, py_bind, mret, py_ret, bind, contains, get. cbn -[lookup].
  destruct (lookup "sub" d0) as [sub|]; [|reflexivity]. cbn -[lookup].
  destruct (int sub) as [n|e]; [|reflexivity].
  now destruct (lookup "role" d0), (lookup "permissions" d0).
Qed.

End GateFacts.

(** ** The claims about the gate *)

Section GateClaims.

Variable decode_access_token : string -> py pyval.

Abbreviation dispatch := (dispatch decode_access_token).
Abbreviation authenticate := (authenticate decode_access_token).

(** Claim C1.  The gate catches verification failures narrowly.  When the
    verification primitive raises on the token of a protected request, an
    instance of [JWTError] (or of a subclass) becomes the response
    401 "Invalid or expired token", and any other exception leaves the
    gate as it is: it is not turned into a response. *)
Theorem gate_catches_narrowly (r : Request) (t : string) (e : exn) :
  protected r ->
  headers_get r "Authorization" = Some ("Bearer " ++ t) ->
  decode_access_token t = Raise e ->
  (isinstance_JWTError e = true ->
   dispatch r = Return (JSONResponse 401 "Invalid or expired token")) /\
  (isinstance_JWTError e = false -> dispatch r = Raise e).
Proof.
  intros Hp Hh He. rewrite (dispatch_bearer _ _ _ Hp Hh).
  unfold AuthMiddleware.authenticate. rewrite He.
  split; intros ->; reflexivity.
Qed.


(** Claim C3.  Public paths are recognised by prefix over the fixed list:
    a request that is not OPTIONS and whose path is an entry of
    [PUBLIC_PATHS] followed by anything is handed on as it came, whatever
    its headers; "/api/auth/refresh" is such a path. *)
Theorem public_prefix_bypass (r : Request) (p rest : string) :
  method r <> "OPTIONS" ->
  In p PUBLIC_PATHS ->
  url_path r = Return (p ++ rest) ->
  PUBLIC_PATHS
  = ["/api/auth"; "/docs"; "/redoc"; "/openapi.json"; "/health"] /\
  dispatch r = Return (CallNext r) /\
  is_public "/api/auth/refresh" = true.
Proof.
  intros _ Hin Hpath. repeat split.
  apply (dispatch_public _ _ _ Hpath). apply is_public_iff.
  now exists p, rest.
Qed.

(** Claim C4, as it holds of the code.  The "id" of an identity is always
    the integer that the subject claim denotes, never a default.  With
    claims that have no subject the request is answered with 401.  With a
    subject that denotes no integer ([None], a list, a dict, a NaN or an
    infinite float, a string that is no integer literal) the request ends
    with the exception of [int]: a [TypeError], [ValueError] or
    [OverflowError].  With a subject that denotes an integer (an integer, a
    boolean, a finite float, a literal) the request is handed on with that
    integer as its "id"; and whenever the request is handed on, its "id" is
    the integer its subject denotes. *)
Theorem subject_id_never_defaulted (r : Request) (t : string)
        (d : list (string * pyval)) :
  protected r ->
  headers_get r "Authorization" = Some ("Bearer " ++ t) ->
  decode_access_token t = Return (PDict d) ->
  (lookup "sub" d = None ->
   dispatch r = Return (JSONResponse 401 "Invalid token payload")) /\
  (forall v, lookup "sub" d = Some v -> (forall n, ~ int_value v n) ->
     exists e, dispatch r = Raise e /\
               (e = TypeError \/ e = ValueError \/ e = OverflowError)) /\
  (forall v, lookup "sub" d = Some v ->
     v = PNone \/ (exists l, v = PList l) \/ (exists d', v = PDict d') ->
     dispatch r = Raise TypeError) /\
  (forall v n, lookup "sub" d = Some v -> int_value v n ->
     dispatch r = Return (CallNext (set_state_user r (PDict
       [("id", PInt n);
        ("role", default (PStr "USER") (lookup "role" d));
        ("permissions", default (PList []) (lookup "permissions" d))])))) /\
  (forall r', dispatch r = Return (CallNext r') ->
     exists v n role permissions,
       lookup "sub" d = Some v /\ int_value v n /\
       state_user r' = Some (PDict
         [("id", PInt n); ("role", role); ("permissions", permissions)])).
Proof.
  intros Hp Hh Hd.
  rewrite (dispatch_bearer _ _ _ Hp Hh), (authenticate_dict _ _ _ _ Hd).
  split; [now intros ->|]. split; [|split; [|split]].
  - intros v -> Hno. destruct (int v) as [n|e] eqn:Hv.
    + apply int_denotes in Hv. now destruct (Hno n).
    + exists e. split; [reflexivity|]. now apply (int_raises v).
  - intros v -> [->|[[l ->]|[d' ->]]]; reflexivity.
  - intros v n -> Hv. apply int_denotes in Hv. now rewrite Hv.
  - intros r' H. destruct (lookup "sub" d) as [v|]; [|discriminate].
    destruct (int v) as [n|e] eqn:Hv; [|discriminate].
    injection H as <-. apply int_denotes in Hv.
    exists v, n. do 2 eexists. repeat split. exact Hv.
Qed.

(** Claim C5.  A protected request without an Authorization header, or
    with one that is not "Bearer " followed by something, is answered
    with 401 "Authentication required"; it is not handed on. *)
Theorem missing_credential_rejected (r : Request) :
  protected r ->
  (headers_get r "Authorization" = None \/
   exists h, headers_get r "Authorization" = Some h /\
             forall t, h <> "Bearer " ++ t) ->
  dispatch r = Return (JSONResponse 401 "Authentication required").
Proof.
  intros Hp H. apply (dispatch_no_bearer _ _ Hp).
  destruct H as [->|(h & -> & Hh)]; [reflexivity|].
  unfold no_bearer. rewrite (startswith_false _ _ Hh).
  apply orb_true_r.
Qed.

(** Claim C6.  A protected request whose token decodes to claims that are
    empty or have no "sub" key is answered with 401
    "Invalid token payload"; it is not handed on, so no identity is
    stored. *)
Theorem malformed_payload_rejected (r : Request) (t : string)
        (d : list (string * pyval)) :
  protected r ->
  headers_get r "Authorization" = Some ("Bearer " ++ t) ->
  decode_access_token t = Return (PDict d) ->
  (d = [] \/ forall v, ~ In ("sub", v) d) ->
  dispatch r = Return (JSONResponse 401 "Invalid token payload").
Proof.
  intros Hp Hh Hd H.
  rewrite (dispatch_bearer _ _ _ Hp Hh), (authenticate_dict _ _ _ _ Hd).
  assert (lookup "sub" d = None) as ->; [|reflexivity].
  destruct H as [->|H]; [reflexivity|]. now apply lookup_None_iff.
Qed.

(** Claim C7, as it holds of the code.  A request whose method is OPTIONS
    and whose path can be read is handed on as it came, for every path and
    every list of headers: after the path is read the test of the method
    comes first, so no later check can reject the request.  When reading the
    path raises, the exception ends the request. *)
Theorem preflight_bypass (r : Request) :
  method r = "OPTIONS" ->
  (forall path, url_path r = Return path ->
                dispatch r = Return (CallNext r)) /\
  (forall e, url_path r = Raise e -> dispatch r = Raise e).
Proof.
  intros Hm. split.
  - intros path Hp. exact (dispatch_options _ _ _ Hm Hp).
  - apply dispatch_unreadable.
Qed.

(** Claim C8.  The token is taken verbatim: from a header "Bearer "
    followed by [t] (which may be empty or contain spaces) the extracted
    token is [t], and [t] is what the verification primitive is asked
    about.  Whatever primitive the gate is run with, what that primitive
    does on [t] decides the result: an exception it raises on [t] comes
    out of the gate (as itself, or as the 401 response when it is a
    [JWTError]), claims it returns for [t] become the identity, and two
    primitives that agree on [t] give the same result whatever they do on
    other tokens.  A primitive that raises an exception named after the
    string it is given shows the string: it is [t], character for
    character. *)
Theorem token_verbatim (t : string) :
  token_of (Some ("Bearer " ++ t)) = Return t /\
  (forall r, protected r ->
     headers_get r "Authorization" = Some ("Bearer " ++ t) ->
     dispatch r = authenticate r t /\
     (forall decode',
        decode' t = decode_access_token t ->
        AuthMiddleware.dispatch decode' r = dispatch r) /\
     (forall (decode' : string -> py pyval) e,
        decode' t = Raise e -> isinstance_JWTError e = false ->
        AuthMiddleware.dispatch decode' r = Raise e) /\
     (forall (decode' : string -> py pyval) e,
        decode' t = Raise e -> isinstance_JWTError e = true ->
        AuthMiddleware.dispatch decode' r
        = Return (JSONResponse 401 "Invalid or expired token")) /\
     (forall (decode' : string -> py pyval) n d,
        decode' t = Return (PDict (("sub", PInt n) :: d)) ->
        AuthMiddleware.dispatch decode' r
        = Return (CallNext (set_state_user r (PDict
            [("id", PInt n);
             ("role", default (PStr "USER") (lookup "role" d));
             ("permissions",
              default (PList []) (lookup "permissions" d))])))) /\
     AuthMiddleware.dispatch (fun given => Raise (OtherException given)) r
     = Raise (OtherException t)).
Proof.
  split; [reflexivity|]. intros r Hp Hh.
  split; [now apply dispatch_bearer|]. split; [|split; [|split; [|split]]].
  5: { now rewrite (dispatch_bearer _ _ _ Hp Hh). }
  - intros decode' H. rewrite !(dispatch_bearer _ _ _ Hp Hh).
    unfold AuthMiddleware.authenticate. now rewrite H.
  - intros decode' e He Hj. rewrite (dispatch_bearer _ _ _ Hp Hh).
    unfold AuthMiddleware.authenticate. now rewrite He, Hj.
  - intros decode' e He Hj. rewrite (dispatch_bearer _ _ _ Hp Hh).
    unfold AuthMiddleware.authenticate. now rewrite He, Hj.
  - intros decode' n d Hd.
    now rewrite (dispatch_bearer _ _ _ Hp Hh), (authenticate_dict _ _ _ _ Hd).
Qed.

End GateClaims.

(** ** Evaluating the gate again *)

Section Determinism.

Lemma authenticate_again (decode : string -> py pyval)
      (r r' : Request) (t : string) :
  authenticate decode r t = Return (CallNext r') ->
  method r' = method r /\ url_path r' = url_path r /\
  headers r' = headers r /\
  authenticate decode r' t = Return (CallNext r').
Proof.
  unfold authenticate. destruct (decode t) as [payload|e].
  - destruct (bad_payload payload) as [[]|e]; py_simpl; try discriminate.
    destruct (user_context payload) as [u|e]; py_simpl; [|discriminate].
    now intros [= <-].
  - destruct (isinstance_JWTError e); discriminate.
Qed.

(** Claim C9.  The decision of the gate is a function of the request and
    of what the verification primitive answers on the token of that
    request.  Two runs on requests with the same method, path, headers and
    state, with primitives that agree on the token, end alike: the same
    response, the same exception, or the same request handed on with the
    same identity.  Running the gate once more on a request it has handed
    on hands on that very request. *)
Theorem gate_deterministic (decode1 decode2 : string -> py pyval)
        (r1 r2 : Request) :
  method r1 = method r2 ->
  url_path r1 = url_path r2 ->
  headers r1 = headers r2 ->
  state_user r1 = state_user r2 ->
  (forall t, headers_get r1 "Authorization" = Some ("Bearer " ++ t) ->
             decode1 t = decode2 t) ->
  dispatch decode1 r1 = dispatch decode2 r2 /\
  (forall r', dispatch decode1 r1 = Return (CallNext r') ->
              dispatch decode1 r' = Return (CallNext r')).
Proof.
  intros Hm Hp Hh Hs Hd.
  assert (r2 = r1) as ->.
  { destruct r1, r2; simpl in *; congruence. }
  clear Hm Hp Hh Hs. rewrite !dispatch_read.
  destruct (url_path r1) as [path|e] eqn:Hpath.
  2: { split; [reflexivity|]. intros r'. discriminate. }
  destruct (String.eqb (method r1) "OPTIONS") eqn:Em.
  { split; [reflexivity|]. intros r' [= <-].
    now rewrite dispatch_read, Hpath, Em. }
  destruct (is_public path) eqn:Ep.
  { split; [reflexivity|]. intros r' [= <-].
    now rewrite dispatch_read, Hpath, Em, Ep. }
  destruct (no_bearer (headers_get r1 "Authorization")) eqn:Eb.
  { split; [reflexivity|]. intros r'. discriminate. }
  destruct (no_bearer_false _ Eb) as [t Ht].
  rewrite Ht, token_of_bearer. py_simpl. split.
  - unfold authenticate. now rewrite (Hd t Ht).
  - intros r' H.
    destruct (authenticate_again _ _ _ _ H) as (Hm & Hp & Hh & H').
    rewrite dispatch_read, Hp, Hpath, Hm, Em, Ep.
    unfold headers_get in *. rewrite Hh, Eb, Ht, token_of_bearer.
    exact H'.
Qed.

End Determinism.

(** ** Queries by primary key *)

Section SqlFacts.

(** On a table whose ids the driver binds, the query is: bind the id or
    raise, then look the row up. *)
Lemma select_by_id_bind_first {A : Type} (driver : Sql.Driver)
      (table : gmap Z A) (id : Z) :
  Sql.keys_bound driver table ->
  Sql.select_by_id driver table id
  = if Sql.can_bind driver id then Return (table !! id)
    else Raise (Sql.bind_error driver).
Proof.
  intros Hk. unfold Sql.select_by_id.
  destruct (table !! id) as [row|] eqn:Hrow; [|reflexivity].
  now rewrite (Hk id (ex_intro _ row Hrow)).
Qed.

Lemma sample_db_keys_bound : Sql.keys_bound Sql.sqlite Samples.sample_db.
Proof.
  intros id [c H]. unfold Samples.sample_db in H.
  apply lookup_insert_Some in H as [[<- _]|[_ H]]; [reflexivity|].
  apply lookup_insert_Some in H as [[<- _]|[_ H]]; [reflexivity|].
  rewrite lookup_empty in H. discriminate H.
Qed.

End SqlFacts.

(** ** The soft delete *)

Section SoftDelete.
Import AdminCollegeService.

Variable driver : Sql.Driver.

Abbreviation delete_college := (delete_college driver).
Abbreviation not_found := (HTTPException 404 "College not found").

Lemma delete_college_missing (db : gmap Z College) (college_id : Z) :
  db !! college_id = None ->
  Sql.can_bind driver college_id = true ->
  delete_college db college_id = (Raise not_found, db).
Proof.
  intros H Hb.
  unfold AdminCollegeService.delete_college, get_college, Sql.select_by_id.
  now rewrite H, Hb.
Qed.

Lemma delete_college_unbound (db : gmap Z College) (college_id : Z) :
  db !! college_id = None ->
  Sql.can_bind driver college_id = false ->
  delete_college db college_id = (Raise (Sql.bind_error driver), db).
Proof.
  intros H Hb.
  unfold AdminCollegeService.delete_college, get_college, Sql.select_by_id.
  now rewrite H, Hb.
Qed.

Lemma delete_college_row (db : gmap Z College) (college_id : Z)
      (c : College) :
  db !! college_id = Some c ->
  delete_college db college_id
  = if truthy (is_active c)
    then (Return (), <[college_id := set_is_active c (PBool false)]> db)
    else (Raise not_found, db).
Proof.
  intros H.
  unfold AdminCollegeService.delete_college, get_college, Sql.select_by_id.
  rewrite H. now destruct (truthy (is_active c)).
Qed.

(** Claim C10, as it holds of the code.  [delete_college] changes the
    [is_active] flag and nothing else.  On a college that is there and
    active it returns, the committed row has [is_active = False] and every
    other column as before, and every other row is as before.  On an id that
    the driver can bind and that is not there, or whose college is inactive
    already, it raises 404 "College not found" and the table stays as it is.
    On an id that is not there and that the driver cannot bind it raises the
    error of the driver, and the table stays as it is.  Deleting a second
    time a college that exists, or any id the driver can bind, raises 404. *)
Theorem delete_college_frame (db : gmap Z College) (college_id : Z) :
  (forall c, db !! college_id = Some c -> is_active c = PBool true ->
     fst (delete_college db college_id) = Return () /\
     (exists c', snd (delete_college db college_id) !! college_id = Some c' /\
        is_active c' = PBool false /\
        name c' = name c /\ code c' = code c /\
        description c' = description c /\ email c' = email c /\
        phone c' = phone c /\ website c' = website c /\
        city c' = city c /\ state c' = state c /\
        country c' = country c /\
        established_year c' = established_year c /\
        created_at c' = created_at c) /\
     (forall j, j <> college_id ->
        snd (delete_college db college_id) !! j = db !! j)) /\
  (((db !! college_id = None /\ Sql.can_bind driver college_id = true) \/
    exists c, db !! college_id = Some c /\ is_active c = PBool false) ->
   delete_college db college_id
   = (Raise (HTTPException 404 "College not found"), db)) /\
  (db !! college_id = None -> Sql.can_bind driver college_id = false ->
   delete_college db college_id = (Raise (Sql.bind_error driver), db)) /\
  (is_Some (db !! college_id) \/ Sql.can_bind driver college_id = true ->
   fst (delete_college (snd (delete_college db college_id)) college_id)
   = Raise (HTTPException 404 "College not found")).
Proof.
  split; [|split; [|split]].
  - intros c Hc Ha. rewrite (delete_college_row _ _ _ Hc), Ha. simpl.
    split; [reflexivity|]. split.
    + exists (set_is_active c (PBool false)).
      rewrite lookup_insert_eq. repeat split.
    + intros j Hj. now rewrite lookup_insert_ne.
  - intros [[H Hb]|(c & Hc & Ha)].
    + now apply delete_college_missing.
    + now rewrite (delete_college_row _ _ _ Hc), Ha.
  - apply delete_college_unbound.
  - intros Hok. destruct (db !! college_id) as [c|] eqn:Hc.
    + rewrite (delete_college_row _ _ _ Hc).
      destruct (truthy (is_active c)) eqn:Ha; simpl.
      * erewrite delete_college_row by apply lookup_insert_eq.
        reflexivity.
      * now rewrite (delete_college_row _ _ _ Hc), Ha.
    + destruct Hok as [[c Hc']|Hb]; [discriminate Hc'|].
      rewrite (delete_college_missing _ _ Hc Hb). simpl.
      now rewrite (delete_college_missing _ _ Hc Hb).
Qed.

End SoftDelete.

(** ** The claims at sample inputs *)

Section Witnesses.
Import Samples AdminCollegeService.

Lemma gate_catches_narrowly_witness :
  dispatch sample_decode (get_with "/api/colleges" "expired")
  = Return (JSONResponse 401 "Invalid or expired token") /\
  dispatch sample_decode (get_with "/api/colleges" "down")
  = Raise (OtherException "ConnectionError").
Proof.
  split.
  - apply (gate_catches_narrowly sample_decode
             (get_with "/api/colleges" "expired") "expired"
             ExpiredSignatureError);
      [sample_protected | reflexivity | reflexivity | reflexivity].
  - apply (gate_catches_narrowly sample_decode
             (get_with "/api/colleges" "down") "down"
             (OtherException "ConnectionError"));
      [sample_protected | reflexivity | reflexivity | reflexivity].
Defined.


Lemma public_prefix_bypass_witness :
  dispatch sample_decode (sample_request "POST" "/api/auth/refresh" [])
  = Return (CallNext (sample_request "POST" "/api/auth/refresh" [])).
Proof.
  refine (proj1 (proj2 (public_prefix_bypass sample_decode
           (sample_request "POST" "/api/auth/refresh" [])
           "/api/auth" "/refresh" _ _ _)));
    [intros H; discriminate H | now left | reflexivity].
Defined.

Lemma subject_id_never_defaulted_witness :
  exists e,
    dispatch sample_decode (get_with "/api/colleges" "badsub") = Raise e /\
    (e = TypeError \/ e = ValueError \/ e = OverflowError).
Proof.
  apply (subject_id_never_defaulted sample_decode
           (get_with "/api/colleges" "badsub") "badsub"
           [("sub", PStr "abc")])
    with (v := PStr "abc");
    [sample_protected | reflexivity | reflexivity | reflexivity |].
  intros n Hv. apply int_denotes in Hv. discriminate Hv.
Defined.

(** Claim C4 as the specification words it fails: a subject that is no
    number, the boolean [True], does not end the request; it is handed on
    with the "id" 1. *)
Lemma subject_true_is_forwarded :
  protected (get_with "/api/colleges" "any") /\
  flag_decode "any" = Return (PDict [("sub", PBool true)]) /\
  dispatch flag_decode (get_with "/api/colleges" "any")
  = Return (CallNext (set_state_user (get_with "/api/colleges" "any")
      (PDict [("id", PInt 1); ("role", PStr "USER");
              ("permissions", PList [])]))).
Proof. split; [sample_protected | split; reflexivity]. Qed.

Lemma missing_credential_rejected_witness :
  dispatch sample_decode
    (sample_request "GET" "/api/colleges" [("authorization", "Basic abc")])
  = Return (JSONResponse 401 "Authentication required").
Proof.
  apply (missing_credential_rejected sample_decode
           (sample_request "GET" "/api/colleges"
              [("authorization", "Basic abc")]));
    [sample_protected|].
  right. exists "Basic abc". split; [reflexivity|].
  intros t H; discriminate H.
Defined.

Lemma malformed_payload_rejected_witness :
  dispatch sample_decode (get_with "/api/colleges" "nosub")
  = Return (JSONResponse 401 "Invalid token payload").
Proof.
  apply (malformed_payload_rejected sample_decode
           (get_with "/api/colleges" "nosub") "nosub"
           [("role", PStr "ADMIN")]);
    [sample_protected | reflexivity | reflexivity |].
  right. intros v [H|[]]. discriminate H.
Defined.

Lemma preflight_bypass_witness :
  dispatch sample_decode (sample_request "OPTIONS" "/api/colleges" [])
  = Return (CallNext (sample_request "OPTIONS" "/api/colleges" [])).
Proof.
  apply (proj1 (preflight_bypass sample_decode
                  (sample_request "OPTIONS" "/api/colleges" []) eq_refl)
               "/api/colleges").
  reflexivity.
Defined.

(** Claim C7 as the specification words it fails: an OPTIONS request whose
    URL does not split is not handed on; reading its path raises. *)
Lemma preflight_unreadable_url :
  method preflight_bad_host = "OPTIONS" /\
  dispatch sample_decode preflight_bad_host = Raise ValueError /\
  dispatch sample_decode preflight_bad_host
  <> Return (CallNext preflight_bad_host).
Proof. repeat split. intros H. discriminate H. Qed.

Lemma token_verbatim_witness :
  dispatch sample_decode (get_with "/api/colleges" " a  b ")
  = authenticate sample_decode (get_with "/api/colleges" " a  b ")
      " a  b " /\
  dispatch (fun _ => Raise (OtherException "KeyStoreDown"))
           (get_with "/api/colleges" " a  b ")
  = Raise (OtherException "KeyStoreDown") /\
  dispatch (fun given => Raise (OtherException given))
           (get_with "/api/colleges" " a  b ")
  = Raise (OtherException " a  b ").
Proof.
  assert (protected (get_with "/api/colleges" " a  b ")) as Hp
    by sample_protected.
  split; [|split].
  - exact (proj1 (proj2 (token_verbatim sample_decode " a  b ")
                    (get_with "/api/colleges" " a  b ") Hp eq_refl)).
  - exact (proj1 (proj2 (proj2 (proj2 (token_verbatim sample_decode " a  b ")
                    (get_with "/api/colleges" " a  b ") Hp eq_refl)))
             (fun _ => Raise (OtherException "KeyStoreDown"))
             (OtherException "KeyStoreDown") eq_refl eq_refl).
  - exact (proj2 (proj2 (proj2 (proj2 (proj2
             (proj2 (token_verbatim sample_decode " a  b ")
                (get_with "/api/colleges" " a  b ") Hp eq_refl)))))).
Defined.

Lemma gate_deterministic_witness :
  dispatch sample_decode (get_with "/api/colleges" "seven")
  = dispatch (fun t => if String.eqb t "seven" then sample_decode t
                       else Raise (OtherException "unused"))
      (get_with "/api/colleges" "seven").
Proof.
  apply (gate_deterministic sample_decode
           (fun t => if String.eqb t "seven" then sample_decode t
                     else Raise (OtherException "unused"))
           (get_with "/api/colleges" "seven")
           (get_with "/api/colleges" "seven"));
    [reflexivity | reflexivity | reflexivity | reflexivity |].
  intros t H. vm_compute in H. injection H as <-. reflexivity.
Defined.

Lemma delete_college_frame_witness :
  fst (delete_college Sql.sqlite sample_db 1) = Return () /\
  delete_college Sql.sqlite sample_db 2
  = (Raise (HTTPException 404 "College not found"), sample_db) /\
  delete_college Sql.sqlite sample_db 3
  = (Raise (HTTPException 404 "College not found"), sample_db).
Proof.
  split; [|split].
  - apply (delete_college_frame Sql.sqlite sample_db 1) with
      (c := sample_college (PBool true)); reflexivity.
  - apply (delete_college_frame Sql.sqlite sample_db 2).
    right. exists (sample_college (PBool false)). split; reflexivity.
  - apply (delete_college_frame Sql.sqlite sample_db 3).
    left. split; reflexivity.
Defined.

(** Claim C10 as the specification words it fails: an id that is not in the
    table and that the driver cannot bind does not give 404; the driver
    raises. *)
Lemma delete_college_unbindable_id :
  sample_db !! (2 ^ 63) = None /\
  delete_college Sql.sqlite sample_db (2 ^ 63)
  = (Raise OverflowError, sample_db) /\
  fst (delete_college Sql.sqlite sample_db (2 ^ 63))
  <> Raise (HTTPException 404 "College not found").
Proof. repeat split. intros H. discriminate H. Qed.

End Witnesses.


(* ================================================================== *)
(** * Part III: further properties of the gate *)
(* ================================================================== *)

Section GateShape.

Variable decode_access_token : string -> py pyval.

Abbreviation dispatch := (dispatch decode_access_token).
Abbreviation authenticate := (authenticate decode_access_token).

(** Membership of a key in a dict is what [lookup] finds. *)
Lemma bad_payload_dict (d : list (string * pyval)) :
  bad_payload (PDict d)
  = Return (match lookup "sub" d with Some _ => false | None => true end).
Proof.
  unfold bad_payload. destruct d as [|kv d]; [reflexivity|].
  change (truthy (PDict (kv :: d))) with true.
  unfold contains, mbind, py_bind, mret, py_ret, bind. cbn -[lookup].
  now destruct (lookup "sub" (kv :: d)).
Qed.

(** Claims that are not a dict never get a request through. *)
Lemma authenticate_forward_dict (r r' : Request) (t : string) :
  authenticate r t = Return (CallNext r') ->
  exists d, decode_access_token t = Return (PDict d).
Proof.
  unfold AuthMiddleware.authenticate.
  destruct (decode_access_token t) as [payload|e].
  - destruct payload as [|b|n|f|s|l|d]; try (now exists d).
    all: unfold bad_payload, user_context.
    all: match goal with
         | |- context [truthy ?v] => destruct (truthy v)
         end; py_simpl; try discriminate.
    + destruct (str_contains s "sub"); simpl; discriminate.
    + match goal with
      | |- context [existsb ?f ?l] => destruct (existsb f l)
      end; simpl; discriminate.
  - destruct (isinstance_JWTError e); discriminate.
Qed.

(** The four ways a request can stand before the gate. *)
Lemma protected_dec (r : Request) :
  protected r \/
  (exists path, url_path r = Return path /\ method r = "OPTIONS") \/
  (exists path, url_path r = Return path /\ is_public path = true) \/
  (exists e, url_path r = Raise e).
Proof.
  unfold protected. destruct (url_path r) as [path|e].
  - destruct (String.eqb_spec (method r) "OPTIONS") as [Hm|Hm].
    + right. left. now exists path.
    + destruct (is_public path) eqn:Hp.
      * right. right. left. now exists path.
      * left. split; [assumption|]. now exists path.
  - right. right. right. now exists e.
Qed.

End GateShape.

Ltac py_simpl_in H :=
  unfold mbind, py_bind, mret, py_ret, bind in H; simpl in H.

Section GateExtras.

Variable decode_access_token : string -> py pyval.

Abbreviation dispatch := (dispatch decode_access_token).
Abbreviation authenticate := (authenticate decode_access_token).

Lemma no_bearer_true (a : option string) :
  no_bearer a = true ->
  a = None \/ exists h, a = Some h /\ forall t, h <> "Bearer " ++ t.
Proof.
  destruct a as [h|]; [|now left]. intros H. right. exists h.
  split; [reflexivity|]. intros t ->.
  now rewrite no_bearer_bearer in H.
Qed.

Lemma set_state_user_ext (r1 r2 : Request) (u : pyval) :
  method r1 = method r2 -> url_path r1 = url_path r2 ->
  headers r1 = headers r2 ->
  set_state_user r1 u = set_state_user r2 u.
Proof. unfold set_state_user. now intros -> -> ->. Qed.

(** Property X1.  The gate hands a request on in two ways only.  Either a
    bypass applied (OPTIONS, or a public path) and the request goes on
    exactly as it came; or the request is protected, carries a header
    "Bearer " followed by a token, the verification primitive returned a
    dict for that token, the dict has a subject that [int] accepts, and the
    request goes on with the identity built from that dict and otherwise
    unchanged.  In both cases the path of the request could be read.  In
    particular a protected request never reaches the application on claims
    that are not a dict, and the gate never changes the method, the path or
    the headers. *)
Theorem forward_only_verified (r r' : Request) :
  dispatch r = Return (CallNext r') ->
  ((exists path, url_path r = Return path /\
                 (method r = "OPTIONS" \/ is_public path = true)) /\
   r' = r) \/
  (protected r /\
   exists t d sub n,
     headers_get r "Authorization" = Some ("Bearer " ++ t) /\
     decode_access_token t = Return (PDict d) /\
     lookup "sub" d = Some sub /\
     int sub = Return n /\
     r' = set_state_user r (PDict
            [("id", PInt n);
             ("role", default (PStr "USER") (lookup "role" d));
             ("permissions", default (PList []) (lookup "permissions" d))])).
Proof.
  intros H. destruct (protected_dec r) as [Hp|Hb].
  - right. split; [assumption|].
    rewrite (dispatch_protected _ _ Hp) in H.
    destruct (no_bearer (headers_get r "Authorization")) eqn:Eb;
      [discriminate|].
    destruct (no_bearer_false _ Eb) as [t Ht].
    rewrite Ht, token_of_bearer in H.
    change (authenticate r t = Return (CallNext r')) in H.
    destruct (authenticate_forward_dict _ _ _ _ H) as [d Hd].
    rewrite (authenticate_dict _ _ _ _ Hd) in H.
    destruct (lookup "sub" d) as [sub|] eqn:Hsub; [|discriminate].
    destruct (int sub) as [n|e] eqn:Hn; [|discriminate].
    injection H as <-. now exists t, d, sub, n.
  - left. destruct Hb as [(path & Hu & Hm)|[(path & Hu & Hpub)|[e Hu]]].
    + rewrite (dispatch_options _ _ path Hm Hu) in H. injection H as <-.
      split; [|reflexivity]. exists path. tauto.
    + rewrite (dispatch_public _ _ path Hu Hpub) in H. injection H as <-.
      split; [|reflexivity]. exists path. tauto.
    + rewrite (dispatch_unreadable _ _ e Hu) in H. discriminate.
Qed.

(** Property X2.  Every response the gate produces itself has status 401
    and one of three messages, and each message has one cause: the request
    is protected and either the header is missing or does not begin with
    "Bearer " ("Authentication required"), or the verification primitive
    raised a [JWTError] on the token ("Invalid or expired token"), or it
    returned claims that are falsy or do not contain "sub"
    ("Invalid token payload"). *)
Theorem response_causes (r : Request) (s : Z) (msg : string) :
  dispatch r = Return (JSONResponse s msg) ->
  protected r /\ s = 401 /\
  ((msg = "Authentication required" /\
    (headers_get r "Authorization" = None \/
     exists h, headers_get r "Authorization" = Some h /\
               forall t, h <> "Bearer " ++ t)) \/
   (msg = "Invalid or expired token" /\
    exists t e, headers_get r "Authorization" = Some ("Bearer " ++ t) /\
                decode_access_token t = Raise e /\
                isinstance_JWTError e = true) \/
   (msg = "Invalid token payload" /\
    exists t payload,
      headers_get r "Authorization" = Some ("Bearer " ++ t) /\
      decode_access_token t = Return payload /\
      (truthy payload = false \/ contains "sub" payload = Return false))).
Proof.
  intros H.
  destruct (protected_dec r)
    as [Hp|[(path & Hu & Hm)|[(path & Hu & Hpub)|[e Hu]]]].
  2: { rewrite (dispatch_options _ _ path Hm Hu) in H. discriminate. }
  2: { rewrite (dispatch_public _ _ path Hu Hpub) in H. discriminate. }
  2: { rewrite (dispatch_unreadable _ _ e Hu) in H. discriminate. }
  split; [assumption|].
  rewrite (dispatch_protected _ _ Hp) in H.
  destruct (no_bearer (headers_get r "Authorization")) eqn:Eb.
  { injection H as <- <-. split; [reflexivity|]. left.
    split; [reflexivity|]. now apply no_bearer_true. }
  destruct (no_bearer_false _ Eb) as [t Ht].
  rewrite Ht, token_of_bearer in H.
  change (authenticate r t = Return (JSONResponse s msg)) in H.
  unfold AuthMiddleware.authenticate in H.
  destruct (decode_access_token t) as [payload|e] eqn:Hd.
  - unfold bad_payload in H. destruct (truthy payload) eqn:Ht'.
    + simpl in H. destruct (contains "sub" payload) as [[]|e] eqn:Hc;
        py_simpl_in H; try discriminate.
      * destruct (user_context payload); discriminate.
      * injection H as <- <-. split; [reflexivity|]. right. right.
        split; [reflexivity|]. exists t, payload. tauto.
    + injection H as <- <-. split; [reflexivity|]. right. right.
      split; [reflexivity|]. exists t, payload. tauto.
  - destruct (isinstance_JWTError e) eqn:He; [|discriminate].
    injection H as <- <-. split; [reflexivity|]. right. left.
    split; [reflexivity|]. now exists t, e.
Qed.

(** Property X3.  The gate raises in three ways only.  Either reading
    the path of the request raised, whatever the method and before any
    bypass is looked at, and that exception comes out; or the path was
    read, the request is protected and has a bearer token, and the
    exception is the one the verification primitive raised (and no
    [JWTError]), or it comes from claims the primitive returned and is a
    [TypeError], [AttributeError], [ValueError] or [OverflowError].  It
    never comes from taking the token out of the header, which gave the
    token.  Conversely an unreadable path always makes the gate raise. *)
Theorem raise_causes (r : Request) (e : exn) :
  (dispatch r = Raise e ->
   url_path r = Raise e \/
   (protected r /\
    exists t,
      headers_get r "Authorization" = Some ("Bearer " ++ t) /\
      token_of (headers_get r "Authorization") = Return t /\
      ((decode_access_token t = Raise e /\ isinstance_JWTError e = false) \/
       (exists payload,
          decode_access_token t = Return payload /\
          (e = TypeError \/ e = AttributeError \/ e = ValueError \/
           e = OverflowError))))) /\
  (url_path r = Raise e -> dispatch r = Raise e).
Proof.
  split; [|apply dispatch_unreadable].
  intros H.
  destruct (protected_dec r)
    as [Hp|[(path & Hu & Hm)|[(path & Hu & Hpub)|[e' Hu]]]].
  2: { rewrite (dispatch_options _ _ path Hm Hu) in H. discriminate. }
  2: { rewrite (dispatch_public _ _ path Hu Hpub) in H. discriminate. }
  2: { rewrite (dispatch_unreadable _ _ e' Hu) in H. left. congruence. }
  right. split; [assumption|].
  rewrite (dispatch_protected _ _ Hp) in H.
  destruct (no_bearer (headers_get r "Authorization")) eqn:Eb;
    [discriminate|].
  destruct (no_bearer_false _ Eb) as [t Ht].
  rewrite Ht, token_of_bearer in H. rewrite Ht.
  exists t. split; [reflexivity|]. split; [apply token_of_bearer|].
  change (authenticate r t = Raise e) in H.
  unfold AuthMiddleware.authenticate in H.
  destruct (decode_access_token t) as [payload|e0] eqn:Hd.
  - right. exists payload. split; [reflexivity|].
    destruct payload as [|b|n|f|s0|l|d].
    7: { rewrite bad_payload_dict in H. py_simpl_in H.
         unfold user_context, get in H.
         destruct (lookup "sub" d) as [sub|]; [|discriminate].
         py_simpl_in H. destruct (int sub) as [k|e1] eqn:Hk.
         - discriminate.
         - injection H as <-. destruct (int_raises _ _ Hk) as [?|[?|?]];
             tauto. }
    all: unfold bad_payload, user_context in H.
    all: match type of H with
         | context [truthy ?v] => destruct (truthy v)
         end; py_simpl_in H; try discriminate.
    all: try (injection H as <-; tauto).
    + destruct (str_contains s0 "sub"); simpl in H; [|discriminate].
      injection H as <-. tauto.
    + match type of H with
      | context [existsb ?f ?l] => destruct (existsb f l)
      end; simpl in H; [|discriminate].
      injection H as <-. tauto.
  - left. destruct (isinstance_JWTError e0) eqn:He; [discriminate|].
    injection H as <-. tauto.
Qed.

(** Property X4.  For a protected request the gate does not look at what
    [request.state.user] held when the request arrived: two requests with
    the same method, path and headers get the same answer, and when they
    are handed on they carry the same identity, whatever was stored on
    them before. *)
Theorem incoming_state_overwritten (r1 r2 : Request) :
  protected r1 ->
  method r1 = method r2 ->
  url_path r1 = url_path r2 ->
  headers r1 = headers r2 ->
  dispatch r1 = dispatch r2.
Proof.
  intros Hp Hm Hu Hh.
  assert (protected r2) as Hp2.
  { destruct Hp as [? (path & ? & ?)]. split; [congruence|].
    exists path. split; [congruence|assumption]. }
  rewrite (dispatch_protected _ _ Hp), (dispatch_protected _ _ Hp2).
  unfold headers_get. rewrite <- Hh.
  destruct (no_bearer _); [reflexivity|].
  destruct (token_of _) as [t|e]; [|reflexivity]. py_simpl.
  unfold AuthMiddleware.authenticate.
  destruct (decode_access_token t) as [payload|e]; [|reflexivity].
  destruct (bad_payload payload) as [[]|e]; py_simpl; try reflexivity.
  destruct (user_context payload) as [u|e]; py_simpl; [|reflexivity].
  now rewrite (set_state_user_ext r1 r2 u Hm Hu Hh).
Qed.

End GateExtras.


(* ================================================================== *)
(** * Part IV: the college service as a whole *)
(* ================================================================== *)

Section CollegeRows.
Import AdminCollegeService.

Lemma is_True_iff (v : pyval) : is_True v = true <-> v = PBool true.
Proof.
  destruct v as [|[]| | | | |]; simpl; split; congruence.
Qed.

Lemma getattr_setattr (c : College) (f g : string) (v : pyval) :
  In g College_columns ->
  getattr (setattr c f v) g
  = if String.eqb f g then Some v else getattr c g.
Proof.
  intros Hin. unfold College_columns in Hin. simpl in Hin.
  repeat (destruct Hin as [<-|Hin]; [cbn; now destruct (String.eqb f _)|]).
  destruct Hin.
Qed.

Lemma getattr_column (c : College) (g : string) :
  In g College_columns -> exists v, getattr c g = Some v.
Proof.
  intros Hin. unfold College_columns in Hin. simpl in Hin.
  repeat (destruct Hin as [<-|Hin]; [eexists; reflexivity|]).
  destruct Hin.
Qed.

Lemma college_ext (c1 c2 : College) :
  (forall g, In g College_columns -> getattr c1 g = getattr c2 g) ->
  c1 = c2.
Proof.
  intros H. destruct c1, c2.
  pose proof (H "name" ltac:(cbn; tauto)) as H1.
  pose proof (H "code" ltac:(cbn; tauto)) as H2.
  pose proof (H "description" ltac:(cbn; tauto)) as H3.
  pose proof (H "email" ltac:(cbn; tauto)) as H4.
  pose proof (H "phone" ltac:(cbn; tauto)) as H5.
  pose proof (H "website" ltac:(cbn; tauto)) as H6.
  pose proof (H "city" ltac:(cbn; tauto)) as H7.
  pose proof (H "state" ltac:(cbn; tauto)) as H8.
  pose proof (H "country" ltac:(cbn; tauto)) as H9.
  pose proof (H "established_year" ltac:(cbn; tauto)) as H10.
  pose proof (H "is_active" ltac:(cbn; tauto)) as H11.
  pose proof (H "created_at" ltac:(cbn; tauto)) as H12.
  clear H. cbn in *. congruence.
Qed.

Lemma apply_updates_snoc (c : College) (l : list (string * pyval))
      (f : string) (v : pyval) :
  apply_updates c (l ++ [(f, v)]) = setattr (apply_updates c l) f v.
Proof. unfold apply_updates. now rewrite fold_left_app. Qed.

(** A column ends up with the value of the last update that names it. *)
Lemma getattr_apply_updates (l : list (string * pyval)) (c : College)
      (g : string) :
  In g College_columns ->
  getattr (apply_updates c l) g
  = match lookup g (rev l) with
    | Some x => Some x
    | None => getattr c g
    end.
Proof.
  intros Hin. induction l as [|[f v] l IH] using rev_ind; [reflexivity|].
  rewrite apply_updates_snoc, rev_app_distr, (getattr_setattr _ _ _ _ Hin).
  simpl. destruct (String.eqb f g); [reflexivity|exact IH].
Qed.

Lemma lookup_In (d : list (string * pyval)) (g : string) (v : pyval) :
  lookup g d = Some v -> In (g, v) d.
Proof.
  induction d as [|[k w] d IH]; simpl; [discriminate|].
  destruct (String.eqb_spec k g) as [->|Hne].
  - intros [= ->]. now left.
  - intros H. right. now apply IH.
Qed.

Lemma lookup_NoDup (d : list (string * pyval)) (g : string) (v : pyval) :
  List.NoDup (map fst d) -> In (g, v) d -> lookup g d = Some v.
Proof.
  induction d as [|[k w] d IH]; simpl; [intros _ []|].
  intros Hnd [Heq|Hin].
  - injection Heq as -> ->. now rewrite String.eqb_refl.
  - inversion Hnd as [|? ? Hk Hnd']; subst.
    destruct (String.eqb_spec k g) as [->|Hne]; [|now apply IH].
    destruct Hk. change g with (fst (g, v)). now apply in_map.
Qed.

End CollegeRows.

Section CollegeFacts.
Import AdminCollegeService.

Variable code_eq : pyval -> pyval -> bool.
Variable created_at_ge : pyval -> pyval -> bool.

Abbreviation create_college := (create_college code_eq).
Abbreviation list_colleges := (list_colleges created_at_ge).

Lemma code_taken_true (db : gmap Z College) (c : pyval) :
  code_taken code_eq db c = true <->
  exists i row, db !! i = Some row /\ code_eq (code row) c = true.
Proof.
  unfold code_taken. rewrite existsb_exists. split.
  - intros ([i row] & Hin & H). exists i, row. split; [|exact H].
    now apply elem_of_map_to_list, list_elem_of_In.
  - intros (i & row & Hrow & H). exists (i, row). split; [|exact H].
    now apply list_elem_of_In, elem_of_map_to_list.
Qed.

Lemma code_taken_false (db : gmap Z College) (c : pyval) :
  code_taken code_eq db c = false <->
  forall i row, db !! i = Some row -> code_eq (code row) c = false.
Proof.
  split.
  - intros H i row Hrow. destruct (code_eq (code row) c) eqn:E; [|reflexivity].
    rewrite <- H. symmetry. apply code_taken_true. now exists i, row.
  - intros H. destruct (code_taken code_eq db c) eqn:E; [|reflexivity].
    apply code_taken_true in E as (i & row & Hrow & Hc).
    now rewrite (H _ _ Hrow) in Hc.
Qed.

Lemma list_colleges_In (db : gmap Z College) (i : Z) (c : College) :
  In (i, c) (list_colleges db) <->
  db !! i = Some c /\ is_active c = PBool true.
Proof.
  unfold AdminCollegeService.list_colleges.
  rewrite <- list_elem_of_In, merge_sort_Permutation, list_elem_of_In.
  rewrite filter_In, <- list_elem_of_In, elem_of_map_to_list.
  simpl. now rewrite is_True_iff.
Qed.

End CollegeFacts.

Section CollegeExtras.
Import AdminCollegeService.

Variable code_eq : pyval -> pyval -> bool.
Variable created_at_ge : pyval -> pyval -> bool.
Variable driver : Sql.Driver.

Abbreviation create_college := (create_college code_eq).
Abbreviation list_colleges := (list_colleges created_at_ge).
Abbreviation codes_unique := (codes_unique code_eq).
Abbreviation get_college := (get_college driver).
Abbreviation delete_college := (delete_college driver).
Abbreviation update_college := (update_college driver).
Abbreviation code_exists :=
  (HTTPException 400 "College with this code already exists").

Lemma create_college_taken (db : gmap Z College) (new_id : Z) (now : pyval)
      (p : CollegeCreate) (i : Z) (c : College) :
  db !! i = Some c -> code_eq (code c) (payload_code p) = true ->
  create_college db new_id now p = (Raise code_exists, db).
Proof.
  intros Hc He. unfold AdminCollegeService.create_college.
  assert (code_taken code_eq db (payload_code p) = true) as ->;
    [|reflexivity].
  apply code_taken_true. now exists i, c.
Qed.


Lemma delete_college_lookup (db : gmap Z College) (id j : Z) :
  snd (delete_college db id) !! j
  = match db !! j with
    | Some c =>
        if decide (id = j)
        then Some (if truthy (is_active c)
                   then set_is_active c (PBool false) else c)
        else Some c
    | None => None
    end.
Proof.
  unfold AdminCollegeService.delete_college, AdminCollegeService.get_college,
    Sql.select_by_id.
  destruct (db !! id) as [c|] eqn:Hc.
  - destruct (truthy (is_active c)) eqn:Ha; simpl.
    + rewrite lookup_insert. destruct (decide (id = j)) as [<-|Hne].
      * now rewrite Hc, Ha.
      * now destruct (db !! j).
    + destruct (db !! j) as [cj|] eqn:Hj; [|reflexivity].
      destruct (decide (id = j)) as [<-|Hne]; [|reflexivity].
      rewrite Hc in Hj. injection Hj as <-. now rewrite Ha.
  - assert (snd (match (if Sql.can_bind driver id then Return None
                        else Raise (Sql.bind_error driver)) with
                 | Return (Some college) =>
                     if negb (truthy (is_active college))
                     then (Raise (HTTPException 404 "College not found"), db)
                     else (Return (),
                           <[id := set_is_active college (PBool false)]> db)
                 | Return None =>
                     (Raise (HTTPException 404 "College not found"), db)
                 | Raise e => (Raise e, db)
                 end) = db) as ->
      by now destruct (Sql.can_bind driver id).
    destruct (db !! j) as [cj|] eqn:Hj; [|reflexivity].
    destruct (decide (id = j)) as [<-|Hne]; [congruence|reflexivity].
Qed.

Lemma update_college_row (db : gmap Z College) (id : Z) (c : College)
      (l : list (string * pyval)) :
  db !! id = Some c ->
  update_college db id l
  = (Return (apply_updates c l), <[id := apply_updates c l]> db).
Proof.
  intros H.
  unfold AdminCollegeService.update_college, AdminCollegeService.get_college,
    Sql.select_by_id.
  now rewrite H.
Qed.

Lemma update_college_absent (db : gmap Z College) (id : Z)
      (l : list (string * pyval)) :
  db !! id = None ->
  update_college db id l
  = (Raise (if Sql.can_bind driver id
            then HTTPException 404 "College not found"
            else Sql.bind_error driver), db).
Proof.
  intros H.
  unfold AdminCollegeService.update_college, AdminCollegeService.get_college,
    Sql.select_by_id.
  rewrite H. now destruct (Sql.can_bind driver id).
Qed.

Lemma get_college_row (db : gmap Z College) (id : Z) (c : College) :
  db !! id = Some c -> get_college db id = Return (Some c).
Proof.
  intros H. unfold AdminCollegeService.get_college, Sql.select_by_id.
  now rewrite H.
Qed.

Lemma fmap_is_map {A B : Type} (f : A -> B) (l : list A) :
  f <$> l = map f l.
Proof. induction l as [|a l IH]; simpl; [reflexivity|now f_equal]. Qed.

Lemma NoDup_map_filter {A B : Type} (f : A -> B) (q : A -> bool)
      (l : list A) :
  List.NoDup (map f l) -> List.NoDup (map f (List.filter q l)).
Proof.
  induction l as [|a l IH]; simpl; [trivial|].
  intros H. inversion H as [|? ? Hnotin Hnd]; subst.
  destruct (q a); simpl; [|now apply IH].
  constructor; [|now apply IH].
  intros Hin. apply Hnotin. apply in_map_iff in Hin as (x & <- & Hx).
  apply in_map. now apply filter_In in Hx.
Qed.

Lemma apply_updates_twice (c : College) (l : list (string * pyval)) :
  apply_updates (apply_updates c l) l = apply_updates c l.
Proof.
  apply college_ext. intros g Hg.
  rewrite !(getattr_apply_updates _ _ _ Hg).
  now destruct (lookup g (rev l)).
Qed.

(** Property X5.  [create_college] refuses a code that any row already
    has, active or not: it raises 400
    "College with this code already exists" and commits nothing. *)
Theorem create_college_duplicate (db : gmap Z College) (new_id : Z)
        (now : pyval) (p : CollegeCreate) (i : Z) (c : College) :
  db !! i = Some c ->
  code_eq (code c) (payload_code p) = true ->
  create_college db new_id now p
  = (Raise (HTTPException 400 "College with this code already exists"), db).
Proof. apply create_college_taken. Qed.


(** Property X7.  A soft delete does not free the code: after
    [delete_college], [create_college] with the code of the deleted college
    is still refused with 400. *)
Theorem deleted_code_stays_taken (db : gmap Z College) (id new_id : Z)
        (now : pyval) (p : CollegeCreate) (c : College) :
  db !! id = Some c ->
  code_eq (code c) (payload_code p) = true ->
  create_college (snd (delete_college db id)) new_id now p
  = (Raise (HTTPException 400 "College with this code already exists"),
     snd (delete_college db id)).
Proof.
  intros Hc He.
  pose proof (delete_college_lookup db id id) as Hl.
  rewrite Hc, decide_True in Hl by reflexivity.
  apply (create_college_taken _ _ _ _ _ _ Hl).
  now destruct (truthy (is_active c)).
Qed.

(** Property X8.  [list_colleges] returns exactly the rows whose
    [is_active] is [True], each once; and when the order on [created_at] is
    total the list is sorted, newest first. *)
Theorem list_colleges_spec (db : gmap Z College) :
  (forall i c, In (i, c) (list_colleges db) <->
               db !! i = Some c /\ is_active c = PBool true) /\
  List.NoDup (map fst (list_colleges db)) /\
  ((forall a b, created_at_ge a b = true \/ created_at_ge b a = true) ->
   Sorted (newest_first created_at_ge) (list_colleges db)).
Proof.
  split; [|split].
  - intros i c. apply list_colleges_In.
  - unfold AdminCollegeService.list_colleges.
    eapply Permutation_NoDup.
    + apply Permutation_map. symmetry. apply merge_sort_Permutation.
    + apply NoDup_map_filter. rewrite <- fmap_is_map.
      apply NoDup_ListNoDup, (NoDup_fst_map_to_list db).
  - intros Htotal. unfold AdminCollegeService.list_colleges.
    apply Sorted_merge_sort. intros a b. apply Htotal.
Qed.

(** Property X9.  After a successful [delete_college] the college is gone
    from [list_colleges] while the other entries stay, and [get_college]
    still returns its row, now inactive: the row is never removed. *)
Theorem soft_delete_hides (db : gmap Z College) (id : Z) (c : College) :
  db !! id = Some c ->
  truthy (is_active c) = true ->
  get_college (snd (delete_college db id)) id
  = Return (Some (set_is_active c (PBool false))) /\
  (forall j row,
     In (j, row) (list_colleges (snd (delete_college db id))) <->
     In (j, row) (list_colleges db) /\ j <> id).
Proof.
  intros Hc Ha. split.
  - apply get_college_row. rewrite delete_college_lookup, Hc, Ha.
    now rewrite decide_True.
  - intros j row. rewrite !list_colleges_In, delete_college_lookup.
    destruct (decide (id = j)) as [<-|Hne].
    + rewrite Hc, Ha. split.
      * intros [[= <-] Hact]. discriminate Hact.
      * intros [_ Hj]. now destruct Hj.
    + destruct (db !! j) as [cj|].
      * split; [intros [? ?]|intros [[? ?] _]]; repeat split; auto.
      * split; [intros [? ?]|intros [[? ?] _]]; discriminate.
Qed.


(** Property X11.  The row [update_college] commits for an update that
    names columns: a column named in the update (a dict, so each name once)
    has the value given for it, and a column that is not named keeps its
    value. *)
Theorem update_college_columns (db : gmap Z College) (id : Z)
        (l : list (string * pyval)) (c c' : College) :
  (forall f v, In (f, v) l -> In f College_columns) ->
  db !! id = Some c ->
  snd (update_college db id l) !! id = Some c' ->
  (forall g v, In g College_columns -> List.NoDup (map fst l) ->
               In (g, v) l -> getattr c' g = Some v) /\
  (forall g, In g College_columns -> (forall v, ~ In (g, v) l) ->
             getattr c' g = getattr c g).
Proof.
  intros _ Hc. rewrite (update_college_row _ _ _ _ Hc). simpl.
  rewrite lookup_insert_eq. intros [= <-]. split.
  - intros g v Hg Hnd Hin. rewrite (getattr_apply_updates _ _ _ Hg).
    assert (lookup g (rev l) = Some v) as ->; [|reflexivity].
    apply lookup_NoDup.
    + rewrite map_rev. now apply NoDup_rev.
    + now apply in_rev in Hin.
  - intros g Hg Hnone. rewrite (getattr_apply_updates _ _ _ Hg).
    assert (lookup g (rev l) = None) as ->; [|reflexivity].
    apply lookup_None_iff. intros v Hin. apply (Hnone v).
    now apply in_rev.
Qed.

(** Property X12.  Sending the same update of columns a second time
    changes nothing: the result and the table are those of the first
    time. *)
Theorem update_college_idempotent (db : gmap Z College) (id : Z)
        (l : list (string * pyval)) :
  (forall f v, In (f, v) l -> In f College_columns) ->
  update_college (snd (update_college db id l)) id l
  = update_college db id l.
Proof.
  intros _. destruct (db !! id) as [c|] eqn:Hc.
  - rewrite (update_college_row _ _ _ _ Hc). simpl.
    erewrite update_college_row by apply lookup_insert_eq.
    now rewrite apply_updates_twice, insert_insert_eq.
  - rewrite (update_college_absent _ _ _ Hc). simpl.
    now rewrite (update_college_absent _ _ _ Hc).
Qed.

(** Property X13.  A soft delete can be undone through [update_college]:
    deleting an active college and then updating it with
    [{"is_active": True}] gives back the table as it was. *)
Theorem delete_then_restore (db : gmap Z College) (id : Z) (c : College) :
  db !! id = Some c ->
  is_active c = PBool true ->
  update_college (snd (delete_college db id)) id [("is_active", PBool true)]
  = (Return c, db).
Proof.
  intros Hc Ha. rewrite (delete_college_row _ _ _ _ Hc), Ha.
  cbn [truthy snd].
  erewrite update_college_row by apply lookup_insert_eq.
  assert (apply_updates (set_is_active c (PBool false))
            [("is_active", PBool true)] = c) as ->.
  { destruct c; simpl in *. subst. reflexivity. }
  now rewrite insert_insert_eq, insert_id.
Qed.

(** Property X14.  [update_college] does not look for the code elsewhere:
    setting the code of one college to the code of another succeeds and
    leaves two rows with one code, so the table no longer has unique codes
    (for any comparison under which a code equals itself). *)
Theorem update_may_duplicate_code (db : gmap Z College) (i j : Z)
        (ci cj : College) :
  i <> j ->
  db !! i = Some ci ->
  db !! j = Some cj ->
  exists ci',
    fst (update_college db i [("code", code cj)]) = Return ci' /\
    snd (update_college db i [("code", code cj)]) !! i = Some ci' /\
    snd (update_college db i [("code", code cj)]) !! j = Some cj /\
    code ci' = code cj /\
    (code_eq (code cj) (code cj) = true ->
     ~ codes_unique (snd (update_college db i [("code", code cj)]))).
Proof.
  intros Hne Hi Hj. rewrite (update_college_row _ _ _ _ Hi). simpl.
  eexists. split; [reflexivity|].
  rewrite lookup_insert_eq, lookup_insert_ne, Hj by assumption.
  repeat split. intros Hrefl Hu.
  specialize (Hu i j _ cj Hne (lookup_insert_eq _ _ _)).
  rewrite lookup_insert_ne in Hu by assumption.
  specialize (Hu Hj). simpl in Hu. congruence.
Qed.

(** Property X15.  Unique codes are an invariant of [delete_college] and,
    when the comparison of codes is symmetric, of [create_college]. *)
Theorem codes_unique_preserved (db : gmap Z College) :
  codes_unique db ->
  (forall id, codes_unique (snd (delete_college db id))) /\
  ((forall a b, code_eq a b = code_eq b a) ->
   forall new_id now p,
     db !! new_id = None ->
     codes_unique (snd (create_college db new_id now p))).
Proof.
  intros Hu. split.
  - intros id i j ci cj Hne Hi Hj.
    rewrite delete_college_lookup in Hi, Hj.
    destruct (db !! i) as [ci0|] eqn:Ei; [|discriminate].
    destruct (db !! j) as [cj0|] eqn:Ej; [|discriminate].
    pose proof (Hu i j ci0 cj0 Hne Ei Ej) as H.
    assert (code ci = code ci0) as ->.
    { destruct (decide (id = i)); injection Hi as <-; [|reflexivity].
      now destruct (truthy (is_active ci0)). }
    assert (code cj = code cj0) as ->; [|exact H].
    destruct (decide (id = j)); injection Hj as <-; [|reflexivity].
    now destruct (truthy (is_active cj0)).
  - intros Hsym new_id now p Hnew.
    unfold AdminCollegeService.create_college.
    destruct (code_taken code_eq db (payload_code p)) eqn:Et; [exact Hu|].
    simpl. intros i j ci cj Hne Hi Hj.
    pose proof (proj1 (code_taken_false code_eq db _) Et) as Hfree.
    apply lookup_insert_Some in Hi as [[<- <-]|[Hi' Hi]];
      apply lookup_insert_Some in Hj as [[<- <-]|[Hj' Hj]].
    + now destruct Hne.
    + rewrite Hsym. apply (Hfree _ _ Hj).
    + apply (Hfree _ _ Hi).
    + apply (Hu _ _ _ _ Hne Hi Hj).
Qed.

End CollegeExtras.


(* ================================================================== *)
(** * Part V: the course file service *)
(* ================================================================== *)

Section CourseFileFacts.
Import AdminCourseFileService.

Lemma to_int_not_nil (n : Z) :
  Z.to_int n <> Decimal.Pos Decimal.Nil /\
  Z.to_int n <> Decimal.Neg Decimal.Nil.
Proof.
  pose proof (DecimalZ.to_of (Z.to_int n)) as H.
  rewrite DecimalZ.of_to in H.
  split; intros E; rewrite E in H; discriminate H.
Qed.

Lemma str_of_int_inj (a b : Z) : str_of_int a = str_of_int b -> a = b.
Proof.
  unfold str_of_int. intros H. apply DecimalZ.to_int_inj.
  destruct (to_int_not_nil a) as [Ha1 Ha2].
  destruct (to_int_not_nil b) as [Hb1 Hb2].
  pose proof (NilZero.isi _ Ha1 Ha2) as Ea.
  pose proof (NilZero.isi _ Hb1 Hb2) as Eb.
  rewrite H in Ea. congruence.
Qed.

Lemma append_inj_l (p a b : string) : (p ++ a = p ++ b)%string -> a = b.
Proof.
  induction p as [|c p IH]; intros H.
  - exact H.
  - apply IH. change ((String c p) ++ a)%string with (String c (p ++ a)) in H.
    change ((String c p) ++ b)%string with (String c (p ++ b)) in H.
    now injection H.
Qed.

Lemma subscript_dict (d : list (string * pyval)) (k : string) :
  subscript (PDict d) k
  = match lookup k d with
    | Some x => Return x
    | None => Raise (OtherException "KeyError")
    end.
Proof. reflexivity. Qed.

Lemma new_course_file_no_dict (course : Z) (file : UploadFile)
      (title description : option string) (duration : option Z)
      (r now : pyval) :
  (forall d, r <> PDict d) ->
  new_course_file course file title description duration r now
  = Raise TypeError.
Proof.
  intros H. destruct r as [|b|n|f|s|l|d]; try reflexivity.
  now destruct (H d).
Qed.

(** [new_course_file] raises on an answer that is no dict and on a dict
    that lacks a key, and on nothing else. *)
Lemma new_course_file_raises (course : Z) (file : UploadFile)
      (title description : option string) (duration : option Z)
      (r now : pyval) (e : exn) :
  new_course_file course file title description duration r now = Raise e ->
  ((forall d, r <> PDict d) /\ e = TypeError) \/
  (exists d, r = PDict d /\
     (lookup "file_size" d = None \/ lookup "content_type" d = None \/
      lookup "file_url" d = None) /\
     e = OtherException "KeyError").
Proof.
  intros H. destruct r as [|b|n|f|s|l|d].
  1-6: left; split; [intros d; discriminate|];
       unfold new_course_file in H; simpl in H; now injection H.
  right. exists d. split; [reflexivity|].
  unfold new_course_file in H. rewrite !subscript_dict in H.
  destruct (lookup "file_size" d); [|injection H as <-; tauto].
  destruct (lookup "content_type" d); [|injection H as <-; tauto].
  destruct (lookup "file_url" d); [|injection H as <-; tauto].
  discriminate H.
Qed.

End CourseFileFacts.

Section CourseFileStore.
Import AdminCourseFileService.

Variable Course : Type.
Variable S3 : Type.
Variable upload_file_to_s3 : UploadFile -> string -> S3 -> py pyval * S3.
Variable created_at_ge : pyval -> pyval -> bool.
Variable driver : Sql.Driver.

Abbreviation upload_course_file :=
  (@upload_course_file Course S3 upload_file_to_s3 driver).
Abbreviation list_course_files := (list_course_files created_at_ge).

Lemma list_course_files_In (files : gmap Z CourseFile) (course i : Z)
      (f : CourseFile) :
  In (i, f) (list_course_files files course) <->
  files !! i = Some f /\ course_id f = course.
Proof.
  unfold AdminCourseFileService.list_course_files.
  rewrite <- list_elem_of_In, merge_sort_Permutation, list_elem_of_In.
  rewrite filter_In, <- list_elem_of_In, elem_of_map_to_list.
  simpl. now rewrite Z.eqb_eq.
Qed.

(** The three outcomes of an upload for a course that is there. *)
Lemma upload_course_file_found
      (courses : gmap Z Course) (files : gmap Z CourseFile) (s3 : S3)
      (new_id : Z) (now : pyval) (course : Z) (file : UploadFile)
      (title description : option string) (duration : option Z)
      (c : Course) :
  courses !! course = Some c ->
  upload_course_file courses files s3 new_id now course file title
                     description duration
  = match upload_file_to_s3 file (folder_of course) s3 with
    | (Raise e, s3') => (Raise e, files, s3')
    | (Return r, s3') =>
        match new_course_file course file title description duration r now
        with
        | Raise e => (Raise e, files, s3')
        | Return row => (Return (new_id, row), <[new_id := row]> files, s3')
        end
    end.
Proof.
  intros H.
  unfold AdminCourseFileService.upload_course_file, Sql.select_by_id.
  now rewrite H.
Qed.

(** The two outcomes of an upload for a course that is not there. *)
Lemma upload_course_file_absent
      (courses : gmap Z Course) (files : gmap Z CourseFile) (s3 : S3)
      (new_id : Z) (now : pyval) (course : Z) (file : UploadFile)
      (title description : option string) (duration : option Z) :
  courses !! course = None ->
  upload_course_file courses files s3 new_id now course file title
                     description duration
  = (Raise (if Sql.can_bind driver course
            then HTTPException 404 "Course not found"
            else Sql.bind_error driver), files, s3).
Proof.
  intros H.
  unfold AdminCourseFileService.upload_course_file, Sql.select_by_id.
  rewrite H. now destruct (Sql.can_bind driver course).
Qed.

Lemma new_course_file_dict (course : Z) (file : UploadFile)
      (title description : option string) (duration : option Z)
      (d : list (string * pyval)) (now size mime url : pyval) :
  lookup "file_size" d = Some size ->
  lookup "content_type" d = Some mime ->
  lookup "file_url" d = Some url ->
  new_course_file course file title description duration (PDict d) now
  = Return {| course_id := course;
              file_name := of_str (filename file);
              file_title := title_or_filename title file;
              file_description := of_str description;
              duration_seconds := of_int duration;
              file_type := PStr (detect_file_type file);
              file_size := size;
              mime_type := mime;
              file_url := url;
              is_published := PBool true;
              download_allowed := PBool true;
              created_at := now |}.
Proof.
  intros H1 H2 H3. unfold new_course_file.
  rewrite !subscript_dict, H1, H2, H3. reflexivity.
Qed.

Lemma new_course_file_missing (course : Z) (file : UploadFile)
      (title description : option string) (duration : option Z)
      (d : list (string * pyval)) (now : pyval) :
  lookup "file_size" d = None \/ lookup "content_type" d = None \/
  lookup "file_url" d = None ->
  new_course_file course file title description duration (PDict d) now
  = Raise (OtherException "KeyError").
Proof.
  intros H. unfold new_course_file. rewrite !subscript_dict.
  destruct (lookup "file_size" d); [|reflexivity].
  destruct (lookup "content_type" d); [|reflexivity].
  destruct (lookup "file_url" d); [|reflexivity].
  destruct H as [H|[H|H]]; discriminate H.
Qed.

End CourseFileStore.

Section CourseFileExtras.
Import AdminCourseFileService.

Variable Course : Type.
Variable S3 : Type.
Variable upload_file_to_s3 : UploadFile -> string -> S3 -> py pyval * S3.
Variable created_at_ge : pyval -> pyval -> bool.
Variable driver : Sql.Driver.

Abbreviation upload_course_file :=
  (@upload_course_file Course S3 upload_file_to_s3 driver).
Abbreviation list_course_files := (list_course_files created_at_ge).

(** Property X16.  The type of an uploaded file is one of three: "PDF"
    exactly when the content type is the string "application/pdf", "VIDEO"
    exactly when it is "video/" followed by anything, and "DOCUMENT" in
    every other case, among them a file without a content type. *)
Theorem file_type_classes (file : UploadFile) :
  (detect_file_type file = "PDF" <->
   content_type file = Some "application/pdf") /\
  (detect_file_type file = "VIDEO" <->
   exists rest, content_type file = Some ("video/" ++ rest)) /\
  (detect_file_type file = "DOCUMENT" <->
   content_type file <> Some "application/pdf" /\
   forall rest, content_type file <> Some ("video/" ++ rest)) /\
  (detect_file_type file = "PDF" \/ detect_file_type file = "VIDEO" \/
   detect_file_type file = "DOCUMENT").
Proof.
  assert (forall rest, "application/pdf" <> "video/" ++ rest) as Happ.
  { intros rest H. cbv in H. discriminate H. }
  unfold detect_file_type. destruct (content_type file) as [ct|].
  2: { split; [split; discriminate|].
       split; [split; [discriminate|intros [rest H]; discriminate H]|].
       split; [|tauto].
       split; [|reflexivity]. intros _. split; [discriminate|].
       intros rest H; discriminate H. }
  destruct (String.eqb_spec ct "application/pdf") as [->|Hpdf].
  { split; [split; reflexivity|].
    split; [split; [discriminate|]|].
    { intros [rest [= H]]; now destruct (Happ rest). }
    split; [|tauto].
    split; [discriminate|]. intros [H _]. now destruct H. }
  destruct (startswith ct "video/") eqn:Ev.
  - pose proof Ev as Ev'. apply startswith_inv in Ev' as [rest ->].
    change (truthy (PStr ("video/" ++ rest))) with true. simpl andb.
    split; [split; [discriminate|]|].
    { intros [= H]; now destruct Hpdf. }
    split; [split; [intros _; now exists rest|reflexivity]|].
    split; [|tauto].
    split; [discriminate|]. intros [_ H]. now destruct (H rest).
  - rewrite andb_false_r.
    assert (forall rest, ct <> "video/" ++ rest) as Hv.
    { intros rest ->. now rewrite startswith_app in Ev. }
    split; [split; [discriminate|]|].
    { intros [= H]; now destruct Hpdf. }
    split; [split; [discriminate|]|].
    { intros [rest [= H]]; now destruct (Hv rest). }
    split; [|tauto].
    split; [|reflexivity]. intros _. split; [congruence|].
    intros rest [= H]; now destruct (Hv rest).
Qed.

(** Property X17.  The ways an upload fails, for a database that accepts
    the row it is given.  There are five, and no others.  For a course that
    does not exist [upload_course_file] stops before anything else happens,
    the object store is not called and no row is written: it raises 404
    "Course not found" when the driver can bind the course id, and the
    error of the driver when it cannot.  For a course that exists the file
    goes to the store first, under the folder "Courses/" followed by the
    course id: when the store raises, the exception is passed on; when the
    store answers with something that is no dict, the function raises
    [TypeError]; when it answers with a dict that lacks "file_size",
    "content_type" or "file_url", the function raises [KeyError]; in these
    two cases the store has already taken the file.  No failure writes a
    row. *)
Theorem upload_failures
        (courses : gmap Z Course) (files : gmap Z CourseFile) (s3 : S3)
        (new_id : Z) (now : pyval) (course : Z) (file : UploadFile)
        (title description : option string) (duration : option Z) :
  (courses !! course = None -> Sql.can_bind driver course = true ->
   upload_course_file courses files s3 new_id now course file title
                      description duration
   = (Raise (HTTPException 404 "Course not found"), files, s3)) /\
  (courses !! course = None -> Sql.can_bind driver course = false ->
   upload_course_file courses files s3 new_id now course file title
                      description duration
   = (Raise (Sql.bind_error driver), files, s3)) /\
  (is_Some (courses !! course) ->
   forall s3',
   (forall e,
      upload_file_to_s3 file ("Courses/" ++ str_of_int course) s3
      = (Raise e, s3') ->
      upload_course_file courses files s3 new_id now course file title
                         description duration
      = (Raise e, files, s3')) /\
   (forall r,
      upload_file_to_s3 file ("Courses/" ++ str_of_int course) s3
      = (Return r, s3') ->
      (forall d, r <> PDict d) ->
      upload_course_file courses files s3 new_id now course file title
                         description duration
      = (Raise TypeError, files, s3')) /\
   (forall d,
      upload_file_to_s3 file ("Courses/" ++ str_of_int course) s3
      = (Return (PDict d), s3') ->
      lookup "file_size" d = None \/ lookup "content_type" d = None \/
      lookup "file_url" d = None ->
      upload_course_file courses files s3 new_id now course file title
                         description duration
      = (Raise (OtherException "KeyError"), files, s3'))) /\
  (forall e files' s3',
     upload_course_file courses files s3 new_id now course file title
                        description duration
     = (Raise e, files', s3') ->
     files' = files /\
     ((courses !! course = None /\ Sql.can_bind driver course = true /\
       e = HTTPException 404 "Course not found" /\ s3' = s3) \/
      (courses !! course = None /\ Sql.can_bind driver course = false /\
       e = Sql.bind_error driver /\ s3' = s3) \/
      (is_Some (courses !! course) /\
       (upload_file_to_s3 file ("Courses/" ++ str_of_int course) s3
        = (Raise e, s3') \/
        (exists r,
           upload_file_to_s3 file ("Courses/" ++ str_of_int course) s3
           = (Return r, s3') /\
           (forall d, r <> PDict d) /\ e = TypeError) \/
        (exists d,
           upload_file_to_s3 file ("Courses/" ++ str_of_int course) s3
           = (Return (PDict d), s3') /\
           (lookup "file_size" d = None \/ lookup "content_type" d = None \/
            lookup "file_url" d = None) /\
           e = OtherException "KeyError"))))).
Proof.
  split; [|split; [|split]].
  - intros H Hb.
    now rewrite (upload_course_file_absent _ _ _ _ _ _ _ _ _ _ _ _ _ _ H), Hb.
  - intros H Hb.
    now rewrite (upload_course_file_absent _ _ _ _ _ _ _ _ _ _ _ _ _ _ H), Hb.
  - intros [c Hc] s3'. split; [|split].
    + intros e Hup.
      rewrite (upload_course_file_found _ _ _ _ _ _ _ _ _ _ _ _ _ _ _ Hc).
      unfold folder_of. now rewrite Hup.
    + intros r Hup Hr.
      rewrite (upload_course_file_found _ _ _ _ _ _ _ _ _ _ _ _ _ _ _ Hc).
      unfold folder_of. rewrite Hup.
      now rewrite (new_course_file_no_dict _ _ _ _ _ _ _ Hr).
    + intros d Hup Hmiss.
      rewrite (upload_course_file_found _ _ _ _ _ _ _ _ _ _ _ _ _ _ _ Hc).
      unfold folder_of. rewrite Hup.
      now rewrite (new_course_file_missing _ _ _ _ _ _ _ Hmiss).
  - intros e files' s3' H.
    destruct (courses !! course) as [c|] eqn:Hc.
    + rewrite (upload_course_file_found _ _ _ _ _ _ _ _ _ _ _ _ _ _ _ Hc)
        in H.
      unfold folder_of in H.
      destruct (upload_file_to_s3 file ("Courses/" ++ str_of_int course) s3)
        as [[r|e0] s0] eqn:Hup.
      * destruct (new_course_file course file title description duration
                    r now) as [row|e1] eqn:Hrow; [discriminate H|].
        injection H as <- <- <-. split; [reflexivity|].
        right. right. split; [now exists c|]. right.
        destruct (new_course_file_raises _ _ _ _ _ _ _ _ Hrow)
          as [[Hr ->]|(d & -> & Hmiss & ->)].
        -- left. now exists r.
        -- right. now exists d.
      * injection H as <- <- <-. split; [reflexivity|].
        right. right. split; [now exists c|]. now left.
    + rewrite (upload_course_file_absent _ _ _ _ _ _ _ _ _ _ _ _ _ _ Hc)
        in H.
      injection H as <- <- <-. split; [reflexivity|].
      destruct (Sql.can_bind driver course); [left|right; left];
        repeat split.
Qed.

(** Property X18.  A successful upload writes one row under the new key.
    The row belongs to the course, is published and downloadable, has the
    size, content type and URL the store answered, the type given by the
    content type of the file, and as title the title passed in or, when
    that is missing or empty, the file name.  Every other row is as before;
    the new file shows in [list_course_files] of its course, and the lists
    of the other courses have the same entries as before. *)
Theorem upload_course_file_ok
        (courses : gmap Z Course) (files : gmap Z CourseFile) (s3 s3' : S3)
        (new_id : Z) (now : pyval) (course : Z) (file : UploadFile)
        (title description : option string) (duration : option Z)
        (c : Course) (d : list (string * pyval)) (size mime url : pyval) :
  courses !! course = Some c ->
  files !! new_id = None ->
  upload_file_to_s3 file ("Courses/" ++ str_of_int course) s3
  = (Return (PDict d), s3') ->
  lookup "file_size" d = Some size ->
  lookup "content_type" d = Some mime ->
  lookup "file_url" d = Some url ->
  exists row files',
    upload_course_file courses files s3 new_id now course file title
                       description duration
    = (Return (new_id, row), files', s3') /\
    files' !! new_id = Some row /\
    (forall j, j <> new_id -> files' !! j = files !! j) /\
    course_id row = course /\
    is_published row = PBool true /\
    download_allowed row = PBool true /\
    file_size row = size /\ mime_type row = mime /\ file_url row = url /\
    file_type row = PStr (detect_file_type file) /\
    file_name row = of_str (filename file) /\
    (title = None \/ title = Some "" ->
     file_title row = of_str (filename file)) /\
    (forall t, title = Some t -> t <> "" -> file_title row = PStr t) /\
    In (new_id, row) (list_course_files files' course) /\
    (forall other j f, other <> course ->
       In (j, f) (list_course_files files' other) <->
       In (j, f) (list_course_files files other)).
Proof.
  intros Hc Hnew Hup H1 H2 H3.
  rewrite (upload_course_file_found _ _ _ _ _ _ _ _ _ _ _ _ _ _ _ Hc).
  unfold folder_of. rewrite Hup.
  rewrite (new_course_file_dict _ _ _ _ _ _ _ _ _ _ H1 H2 H3).
  eexists. eexists. split; [reflexivity|].
  split; [apply lookup_insert_eq|].
  split; [intros j Hj; now rewrite lookup_insert_ne|].
  repeat (split; [reflexivity|]). split; [|split; [|split]].
  - simpl. unfold title_or_filename. now intros [->| ->].
  - simpl. unfold title_or_filename. intros t -> Hne. simpl.
    destruct (String.eqb_spec t ""); [contradiction|reflexivity].
  - apply list_course_files_In. split; [apply lookup_insert_eq|reflexivity].
  - intros other j f Hother. rewrite !list_course_files_In.
    destruct (decide (j = new_id)) as [->|Hj].
    + rewrite lookup_insert_eq, Hnew. split.
      * intros [[= <-] Hcid]. simpl in Hcid. congruence.
      * intros [H _]. discriminate H.
    + now rewrite lookup_insert_ne.
Qed.

(** Property X19.  [list_course_files] returns exactly the rows of the
    course, each once; and when the order on [created_at] is total the
    list is sorted, newest first. *)
Theorem list_course_files_spec (files : gmap Z CourseFile) (course : Z) :
  (forall i f, In (i, f) (list_course_files files course) <->
               files !! i = Some f /\ course_id f = course) /\
  List.NoDup (map fst (list_course_files files course)) /\
  ((forall a b, created_at_ge a b = true \/ created_at_ge b a = true) ->
   Sorted (newest_file_first created_at_ge)
          (list_course_files files course)).
Proof.
  split; [|split].
  - intros i f. apply list_course_files_In.
  - unfold AdminCourseFileService.list_course_files.
    eapply Permutation_NoDup.
    + apply Permutation_map. symmetry. apply merge_sort_Permutation.
    + apply NoDup_map_filter. rewrite <- fmap_is_map.
      apply NoDup_ListNoDup, (NoDup_fst_map_to_list files).
  - intros Htotal. unfold AdminCourseFileService.list_course_files.
    apply Sorted_merge_sort. intros a b. apply Htotal.
Qed.

(** Property X20.  Different courses upload to different folders: the
    folder name determines the course id. *)
Theorem folder_of_injective (a b : Z) : a <> b -> folder_of a <> folder_of b.
Proof.
  unfold folder_of. intros Hne H. apply Hne, str_of_int_inj.
  now apply (append_inj_l "Courses/").
Qed.

(** Property X21.  Every file row belongs to a course that exists: if that
    holds of the table, it holds after [upload_course_file], whatever the
    upload did. *)
Theorem upload_keeps_files_attached
        (courses : gmap Z Course) (files : gmap Z CourseFile) (s3 : S3)
        (new_id : Z) (now : pyval) (course : Z) (file : UploadFile)
        (title description : option string) (duration : option Z) :
  (forall i f, files !! i = Some f -> is_Some (courses !! course_id f)) ->
  forall i f,
    snd (fst (upload_course_file courses files s3 new_id now course file
                                 title description duration)) !! i = Some f ->
    is_Some (courses !! course_id f).
Proof.
  intros Hinv i f.
  destruct (courses !! course) as [c|] eqn:Hc.
  2: { rewrite (upload_course_file_absent _ _ _ _ _ _ _ _ _ _ _ _ _ _ Hc).
       apply Hinv. }
  rewrite (upload_course_file_found _ _ _ _ _ _ _ _ _ _ _ _ _ _ _ Hc).
  destruct (upload_file_to_s3 file (folder_of course) s3) as [[r|e] s3'];
    [|apply Hinv].
  destruct (new_course_file course file title description duration r now)
    as [row|e] eqn:Hrow; [|apply Hinv].
  simpl. intros H. apply lookup_insert_Some in H as [[<- <-]|[_ H]].
  - assert (course_id row = course) as ->; [|now rewrite Hc].
    unfold new_course_file in Hrow.
    destruct (subscript r "file_size"); [|discriminate].
    destruct (subscript r "content_type"); [|discriminate].
    destruct (subscript r "file_url"); [|discriminate].
    py_simpl_in Hrow. now injection Hrow as <-.
  - now apply (Hinv i).
Qed.

End CourseFileExtras.


(* ================================================================== *)
(** * Part VI: the courses of a college admin *)
(* ================================================================== *)

Section AdminCoursesFacts.
Import AdminCourseFileService CollegeAdminCourses.

Lemma load_global_found (globals : list string) (name : string) :
  In name globals -> load_global globals name = Return tt.
Proof.
  intros H. unfold load_global.
  assert (existsb (String.eqb name) globals = true) as ->; [|reflexivity].
  apply existsb_exists. exists name. split; [assumption|].
  apply String.eqb_refl.
Qed.

Lemma load_global_missing (globals : list string) (name : string) :
  ~ In name globals ->
  load_global globals name = Raise (OtherException "NameError").
Proof.
  intros H. unfold load_global.
  destruct (existsb (String.eqb name) globals) eqn:E; [|reflexivity].
  apply existsb_exists in E as (x & Hin & Hx).
  apply String.eqb_eq in Hx. subst x. contradiction.
Qed.

Lemma load_global_cases (globals : list string) (name : string) :
  load_global globals name = Return tt \/
  load_global globals name = Raise (OtherException "NameError").
Proof. unfold load_global. destruct (existsb _ _); tauto. Qed.

Lemma filter_none {A : Type} (q : A -> bool) (l : list A) :
  (forall x, In x l -> q x = false) -> List.filter q l = [].
Proof.
  induction l as [|a l IH]; simpl; [reflexivity|]. intros H.
  rewrite (H a) by now left. apply IH. intros x Hx. apply H. now right.
Qed.

Lemma filter_one {A : Type} (q : A -> bool) (l : list A) (x : A) :
  List.NoDup l -> In x l -> q x = true ->
  (forall y, In y l -> q y = true -> y = x) ->
  List.filter q l = [x].
Proof.
  induction l as [|a l IH]; simpl; [intros _ []|].
  intros Hnd Hin Hq Huniq. inversion Hnd as [|? ? Hnotin Hnd']; subst.
  destruct Hin as [->|Hin].
  - rewrite Hq. f_equal. apply filter_none. intros y Hy.
    destruct (q y) eqn:Ey; [|reflexivity].
    assert (y = x) as -> by (apply Huniq; [now right|assumption]).
    contradiction.
  - destruct (q a) eqn:Ea.
    + assert (a = x) as -> by (apply Huniq; [now left|assumption]).
      contradiction.
    + apply IH; try assumption. intros y Hy. apply Huniq. now right.
Qed.

Section Query.

Variable sql_eq : pyval -> pyval -> bool.
Variable created_at_ge : pyval -> pyval -> bool.

Lemma courses_of_In (courses : gmap Z Course) (college : pyval) (k : Z)
      (c : Course) :
  In (k, c) (courses_of sql_eq created_at_ge courses college) <->
  courses !! k = Some c /\
  sql_eq (college_id c) college = true /\
  is_active c = PBool true /\ is_published c = PBool true.
Proof.
  unfold courses_of.
  rewrite <- list_elem_of_In, merge_sort_Permutation, list_elem_of_In.
  rewrite filter_In, <- list_elem_of_In, elem_of_map_to_list. simpl.
  rewrite !andb_true_iff, !is_True_iff. tauto.
Qed.

Lemma courses_of_NoDup (courses : gmap Z Course) (college : pyval) :
  List.NoDup (map fst (courses_of sql_eq created_at_ge courses college)).
Proof.
  unfold courses_of. eapply Permutation_NoDup.
  - apply Permutation_map. symmetry. apply merge_sort_Permutation.
  - apply NoDup_map_filter. rewrite <- fmap_is_map.
    apply NoDup_ListNoDup, (NoDup_fst_map_to_list courses).
Qed.

End Query.

End AdminCoursesFacts.

Section AdminCoursesExtras.
Import AdminCourseFileService CollegeAdminCourses.

Variable sql_eq : pyval -> pyval -> bool.
Variable created_at_ge : pyval -> pyval -> bool.

Abbreviation get_admin_courses_for_college :=
  (get_admin_courses_for_college sql_eq created_at_ge).
Abbreviation courses_of := (courses_of sql_eq created_at_ge).

(** Property X22.  [get_admin_courses_for_college] names [CollegeAdmin],
    which neither service module imports.  In a module that does not bind
    that name the function raises [NameError] on every call, before it
    reads the database or its argument; that is the case in
    [college_service.py] and in [course_file_service.py]. *)
Theorem admin_courses_name_error
        (admins : gmap Z CollegeAdmin) (courses : gmap Z Course)
        (college_admin_user : pyval) :
  (forall globals, ~ In "CollegeAdmin" globals ->
     get_admin_courses_for_college globals admins courses college_admin_user
     = Raise (OtherException "NameError")) /\
  get_admin_courses_for_college college_service_globals admins courses
                                college_admin_user
  = Raise (OtherException "NameError") /\
  get_admin_courses_for_college course_file_service_globals admins courses
                                college_admin_user
  = Raise (OtherException "NameError").
Proof.
  assert (forall globals, ~ In "CollegeAdmin" globals ->
     get_admin_courses_for_college globals admins courses college_admin_user
     = Raise (OtherException "NameError")) as H.
  { intros globals Hno.
    unfold CollegeAdminCourses.get_admin_courses_for_college.
    destruct (load_global_cases globals "select") as [-> | ->];
      [|reflexivity].
    py_simpl. now rewrite (load_global_missing _ _ Hno). }
  split; [exact H|]. split; apply H; simpl; intros Hin;
    repeat (destruct Hin as [Hin|Hin]; [discriminate Hin|]); exact Hin.
Qed.

(** Property X23.  In a module that binds the names the function uses, and
    for a user dict with an "id": when no admin row has that user id the
    function raises 404 "College admin record not found"; when exactly one
    has, it returns the college id of that row, and under "courses" one
    entry for each course of that college that is active and published,
    each once, with "total_courses" the number of entries. *)
Theorem admin_courses_resolved
        (globals : list string)
        (admins : gmap Z CollegeAdmin) (courses : gmap Z Course)
        (d : list (string * pyval)) (uid : pyval) :
  In "select" globals -> In "CollegeAdmin" globals ->
  In "Course" globals -> In "HTTPException" globals ->
  lookup "id" d = Some uid ->
  ((forall k a, admins !! k = Some a ->
                sql_eq (admin_user_id a) uid = false) ->
   get_admin_courses_for_college globals admins courses (PDict d)
   = Raise (HTTPException 404 "College admin record not found")) /\
  (forall k a,
     admins !! k = Some a ->
     sql_eq (admin_user_id a) uid = true ->
     (forall k' a', admins !! k' = Some a' ->
                    sql_eq (admin_user_id a') uid = true -> k' = k) ->
     exists rows,
       get_admin_courses_for_college globals admins courses (PDict d)
       = Return (PDict
           [ ("college_id", admin_college_id a);
             ("total_courses", PInt (Z.of_nat (List.length rows)));
             ("courses", PList (map course_entry rows)) ]) /\
       List.length (map course_entry rows) = List.length rows /\
       List.NoDup (map fst rows) /\
       (forall j c, In (j, c) rows <->
          courses !! j = Some c /\
          sql_eq (college_id c) (admin_college_id a) = true /\
          is_active c = PBool true /\ is_published c = PBool true)).
Proof.
  intros Hsel Hadm Hcourse Hexc Hid.
  unfold CollegeAdminCourses.get_admin_courses_for_college.
  rewrite !(load_global_found _ _ Hsel), (load_global_found _ _ Hadm),
    (load_global_found _ _ Hcourse), (load_global_found _ _ Hexc).
  rewrite subscript_dict, Hid. py_simpl. split.
  - intros Hnone. rewrite filter_none; [reflexivity|].
    intros [k a] Hin. simpl.
    apply (Hnone k). now apply elem_of_map_to_list, list_elem_of_In.
  - intros k a Ha Hq Huniq.
    rewrite (filter_one _ _ (k, a)).
    + simpl. exists (courses_of courses (admin_college_id a)).
      split; [reflexivity|]. split; [apply length_map|].
      split; [apply courses_of_NoDup|]. intros j c. apply courses_of_In.
    + apply NoDup_ListNoDup, NoDup_map_to_list.
    + now apply list_elem_of_In, elem_of_map_to_list.
    + exact Hq.
    + intros [k' a'] Hin Hq'. simpl in Hq'.
      apply list_elem_of_In, elem_of_map_to_list in Hin.
      assert (k' = k) as -> by (now apply (Huniq k' a')).
      simpl in Hin. congruence.
Qed.

End AdminCoursesExtras.


(* ================================================================== *)
(** * Part VII: subjects written by [str] *)
(* ================================================================== *)

Section SubjectRoundTrip.
Import AdminCourseFileService.

Lemma uint_string_digits (d : Decimal.uint) :
  all_chars is_digit (NilEmpty.string_of_uint d) = true.
Proof. induction d; simpl; trivial. Qed.

Lemma decimal_from_pos (d : Decimal.uint) :
  forall acc : positive,
    decimal_from (Z.pos acc) (NilEmpty.string_of_uint d)
    = Z.pos (Pos.of_uint_acc d acc).
Proof.
  induction d as [|d IH|d IH|d IH|d IH|d IH|d IH|d IH|d IH|d IH|d IH];
    intros acc; [reflexivity|..];
    cbn [NilEmpty.string_of_uint decimal_from Pos.of_uint_acc];
    rewrite <- IH; f_equal; unfold digit_value; simpl N_of_ascii; lia.
Qed.

Lemma decimal_of_uint (d : Decimal.uint) :
  decimal (NilEmpty.string_of_uint d) = Z.of_uint d.
Proof.
  unfold decimal, Z.of_uint.
  induction d as [|d IH|d IH|d IH|d IH|d IH|d IH|d IH|d IH|d IH|d IH];
    [reflexivity|exact IH|..];
    cbn [NilEmpty.string_of_uint decimal_from Pos.of_uint];
    match goal with
    | |- decimal_from ?a _ = _ =>
        let p := eval vm_compute in a in change a with p
    end;
    now rewrite decimal_from_pos.
Qed.

(** The string [str] gives for a natural number in decimal notation. *)
Lemma nilzero_string (d : Decimal.uint) :
  NilZero.string_of_uint d <> EmptyString /\
  all_chars is_digit (NilZero.string_of_uint d) = true /\
  decimal (NilZero.string_of_uint d) = Z.of_uint d.
Proof.
  destruct d; repeat split; try discriminate;
    try apply (uint_string_digits (_ _));
    try apply (decimal_of_uint (_ _)).
Qed.

(** [int] on a minus sign followed by decimal digits. *)
Lemma int_of_str_minus_digits (s : string) :
  s <> EmptyString ->
  all_chars is_digit s = true ->
  (String.length s <= int_max_str_digits)%nat ->
  int_of_str (String "-" s) = Return (- decimal s).
Proof.
  intros Hne Hall Hlen. destruct s as [|c s]; [congruence|].
  pose proof Hall as Hall'. simpl in Hall'.
  apply andb_prop in Hall' as [Hc _].
  destruct (digit_is_plain c Hc) as (_ & _ & _ & Hus).
  unfold int_of_str. rewrite ascii_text_plain.
  2: { change (all_chars is_plain (String "-" (String c s)))
         with (all_chars is_plain (String c s)).
       revert Hall. apply all_chars_mono, digit_below_127. }
  unfold int_of_ascii. cbn [skip_spaces].
  change (is_int_space "-") with false. cbv iota.
  unfold split_sign. change (Ascii.eqb "-" "+") with false.
  change (Ascii.eqb "-" "-") with true. cbv iota.
  simpl startswith. rewrite Hus. simpl andb.
  rewrite (scan_digits_digits _ 0 0%nat Hall).
  simpl String.length. simpl Nat.add. simpl Nat.eqb.
  apply Nat.ltb_ge in Hlen. simpl String.length in Hlen. rewrite Hlen.
  reflexivity.
Qed.

(** [int(str(n)) == n], as long as [str(n)] is not too long for [int]. *)
Lemma int_of_str_of_int (n : Z) :
  (String.length (str_of_int n) <= int_max_str_digits)%nat ->
  int_of_str (str_of_int n) = Return n.
Proof.
  unfold str_of_int. intros Hlen.
  rewrite <- (DecimalZ.of_to n) at 2.
  destruct (Z.to_int n) as [d|d]; simpl NilZero.string_of_int in *.
  - destruct (nilzero_string d) as (Hne & Hall & Hval).
    rewrite (int_of_str_digits _ Hne Hall Hlen), Hval. reflexivity.
  - destruct (nilzero_string d) as (Hne & Hall & Hval).
    assert (String.length (NilZero.string_of_uint d)
            <= int_max_str_digits)%nat as Hlen'.
    { simpl String.length in Hlen. lia. }
    rewrite (int_of_str_minus_digits _ Hne Hall Hlen'), Hval. reflexivity.
Qed.

Variable decode_access_token : string -> py pyval.

Abbreviation dispatch := (dispatch decode_access_token).

(** Property X24.  The gate reads back what [str] wrote: when the subject
    claim is [str(n)] for an integer [n] (negative or not, and short enough
    for [int] to accept it), a protected request is handed on with
    [n] as the "id" of its identity. *)
Theorem subject_round_trip (r : Request) (t : string)
        (d : list (string * pyval)) (n : Z) :
  protected r ->
  headers_get r "Authorization" = Some ("Bearer " ++ t) ->
  decode_access_token t = Return (PDict d) ->
  lookup "sub" d = Some (PStr (str_of_int n)) ->
  (String.length (str_of_int n) <= int_max_str_digits)%nat ->
  dispatch r = Return (CallNext (set_state_user r (PDict
    [("id", PInt n);
     ("role", default (PStr "USER") (lookup "role" d));
     ("permissions", default (PList []) (lookup "permissions" d))]))).
Proof.
  intros Hp Hh Hd Hsub Hlen.
  rewrite (dispatch_bearer _ _ _ Hp Hh), (authenticate_dict _ _ _ _ Hd), Hsub.
  simpl int. now rewrite (int_of_str_of_int _ Hlen).
Qed.

End SubjectRoundTrip.


(* ================================================================== *)
(** * Part VIII: the further properties at sample inputs *)
(* ================================================================== *)

Section GateSamples.
Import Samples.

Lemma forward_only_verified_witness :
  protected (get_with "/api/colleges" "seven") /\
  exists t d sub n,
    headers_get (get_with "/api/colleges" "seven") "Authorization"
    = Some ("Bearer " ++ t) /\
    sample_decode t = Return (PDict d) /\
    lookup "sub" d = Some sub /\
    int sub = Return n /\
    set_state_user (get_with "/api/colleges" "seven")
      (PDict [("id", PInt 7); ("role", PStr "USER");
              ("permissions", PList [])])
    = set_state_user (get_with "/api/colleges" "seven") (PDict
        [("id", PInt n);
         ("role", default (PStr "USER") (lookup "role" d));
         ("permissions", default (PList []) (lookup "permissions" d))]).
Proof.
  destruct (forward_only_verified sample_decode
              (get_with "/api/colleges" "seven")
              (set_state_user (get_with "/api/colleges" "seven")
                 (PDict [("id", PInt 7); ("role", PStr "USER");
                         ("permissions", PList [])]))
              eq_refl) as [[_ H]|H].
  - discriminate H.
  - exact H.
Defined.

Lemma response_causes_witness :
  protected (sample_request "GET" "/api/colleges" []) /\ 401 = 401.
Proof.
  destruct (response_causes sample_decode
              (sample_request "GET" "/api/colleges" [])
              401 "Authentication required" eq_refl) as (Hp & Hs & _).
  exact (conj Hp Hs).
Defined.

Lemma raise_causes_witness :
  (protected (get_with "/api/colleges" "badsub") /\
   exists t,
     headers_get (get_with "/api/colleges" "badsub") "Authorization"
     = Some ("Bearer " ++ t) /\
     token_of (headers_get (get_with "/api/colleges" "badsub")
                           "Authorization") = Return t /\
     ((sample_decode t = Raise ValueError /\
       isinstance_JWTError ValueError = false) \/
      (exists payload,
         sample_decode t = Return payload /\
         (ValueError = TypeError \/ ValueError = AttributeError \/
          ValueError = ValueError \/ ValueError = OverflowError)))) /\
  dispatch sample_decode preflight_bad_host = Raise ValueError.
Proof.
  split.
  - destruct (proj1 (raise_causes sample_decode
                       (get_with "/api/colleges" "badsub") ValueError)
                    eq_refl) as [H|H]; [discriminate H | exact H].
  - exact (proj2 (raise_causes sample_decode preflight_bad_host ValueError)
                 eq_refl).
Defined.

Lemma incoming_state_overwritten_witness :
  dispatch sample_decode (get_with "/api/colleges" "seven")
  = dispatch sample_decode
      {| method := "GET"; url_path := Return "/api/colleges";
         headers := [("authorization", "Bearer seven")];
         state_user := Some (PDict [("id", PInt 1);
                                    ("role", PStr "ADMIN");
                                    ("permissions", PList [])]) |}.
Proof.
  apply (incoming_state_overwritten sample_decode
           (get_with "/api/colleges" "seven")
           {| method := "GET"; url_path := Return "/api/colleges";
              headers := [("authorization", "Bearer seven")];
              state_user := Some (PDict [("id", PInt 1);
                                         ("role", PStr "ADMIN");
                                         ("permissions", PList [])]) |});
    [sample_protected | reflexivity | reflexivity | reflexivity].
Defined.

Lemma subject_round_trip_witness :
  dispatch sample_decode (get_with "/api/colleges" "admin")
  = Return (CallNext (set_state_user (get_with "/api/colleges" "admin")
      (PDict [("id", PInt 42); ("role", PStr "ADMIN");
              ("permissions", PList [PStr "x"])]))).
Proof.
  apply (subject_round_trip sample_decode
           (get_with "/api/colleges" "admin") "admin"
           [("sub", PStr "42"); ("role", PStr "ADMIN");
            ("permissions", PList [PStr "x"])] 42);
    [sample_protected | reflexivity | reflexivity | reflexivity |].
  apply Nat.leb_le. vm_compute. reflexivity.
Defined.

End GateSamples.

Section CollegeSamples.
Import AdminCollegeService ServiceSamples.

Ltac in_colleges H :=
  unfold colleges in H;
  apply lookup_insert_Some in H as [[<- <-]|[_ H]];
  [|apply lookup_insert_Some in H as [[<- <-]|[_ H]];
    [|rewrite lookup_empty in H; discriminate H]].

Lemma create_college_duplicate_witness :
  create_college same_value colleges 3 (PInt 30) (payload "HC")
  = (Raise (HTTPException 400 "College with this code already exists"),
     colleges).
Proof.
  apply (create_college_duplicate same_value colleges 3 (PInt 30)
           (payload "HC") 1 (college "HC" true 10)); reflexivity.
Defined.


Lemma deleted_code_stays_taken_witness :
  create_college same_value (snd (delete_college Sql.sqlite colleges 1)) 3
                 (PInt 30) (payload "HC")
  = (Raise (HTTPException 400 "College with this code already exists"),
     snd (delete_college Sql.sqlite colleges 1)).
Proof.
  apply (deleted_code_stays_taken same_value Sql.sqlite colleges 1 3 (PInt 30)
           (payload "HC") (college "HC" true 10)); reflexivity.
Defined.

Lemma soft_delete_hides_witness :
  get_college Sql.sqlite (snd (delete_college Sql.sqlite colleges 1)) 1
  = Return (Some (set_is_active (college "HC" true 10) (PBool false))).
Proof.
  apply (soft_delete_hides not_before Sql.sqlite colleges 1
           (college "HC" true 10));
    reflexivity.
Defined.

Ltac only_columns :=
  let H := fresh in
  intros ? ? H; simpl in H; destruct H as [H|[]];
  injection H as <- _; simpl; tauto.


Lemma update_college_columns_witness :
  getattr (setattr (college "HC" true 10) "city" (PStr "Goa")) "city"
  = Some (PStr "Goa").
Proof.
  apply (update_college_columns Sql.sqlite colleges 1 [("city", PStr "Goa")]
           (college "HC" true 10)
           (setattr (college "HC" true 10) "city" (PStr "Goa")));
    [only_columns | reflexivity | reflexivity | simpl; tauto |
    | now left].
  repeat constructor. intros H. destruct H.
Defined.

Lemma update_college_idempotent_witness :
  update_college Sql.sqlite
    (snd (update_college Sql.sqlite colleges 1 [("city", PStr "Goa")])) 1
    [("city", PStr "Goa")]
  = update_college Sql.sqlite colleges 1 [("city", PStr "Goa")].
Proof.
  apply (update_college_idempotent Sql.sqlite colleges 1
           [("city", PStr "Goa")]).
  only_columns.
Defined.

Lemma delete_then_restore_witness :
  update_college Sql.sqlite (snd (delete_college Sql.sqlite colleges 1)) 1
                 [("is_active", PBool true)]
  = (Return (college "HC" true 10), colleges).
Proof.
  apply (delete_then_restore Sql.sqlite colleges 1 (college "HC" true 10));
    reflexivity.
Defined.

Lemma update_may_duplicate_code_witness :
  exists ci',
    snd (update_college Sql.sqlite colleges 1 [("code", PStr "LK")]) !! 1
    = Some ci' /\
    snd (update_college Sql.sqlite colleges 1 [("code", PStr "LK")]) !! 2
    = Some (college "LK" true 20) /\
    code ci' = PStr "LK".
Proof.
  destruct (update_may_duplicate_code same_value Sql.sqlite colleges 1 2
              (college "HC" true 10) (college "LK" true 20))
    as (ci' & _ & H1 & H2 & H3 & _);
    [intros H; discriminate H | reflexivity | reflexivity |].
  exists ci'. exact (conj H1 (conj H2 H3)).
Defined.

Lemma codes_unique_preserved_witness :
  codes_unique same_value (snd (delete_college Sql.sqlite colleges 1)).
Proof.
  apply (codes_unique_preserved same_value Sql.sqlite colleges).
  intros i j ci cj Hne Hi Hj.
  in_colleges Hi; in_colleges Hj; try reflexivity; now destruct Hne.
Defined.

End CollegeSamples.

Section CourseFileSamples.
Import AdminCourseFileService ServiceSamples.

Lemma upload_failures_witness :
  upload_course_file unit (list (string * string)) upload_ok Sql.sqlite
                     course_table file_table [] 2 (PInt 9)
                     8 slides None None None
  = (Raise (HTTPException 404 "Course not found"), file_table, []) /\
  upload_course_file unit (list (string * string)) upload_ok Sql.sqlite
                     course_table file_table [] 2 (PInt 9)
                     (2 ^ 63) slides None None None
  = (Raise OverflowError, file_table, []) /\
  upload_course_file unit (list (string * string)) upload_down Sql.sqlite
                     course_table file_table [] 2 (PInt 9)
                     7 slides None None None
  = (Raise (OtherException "EndpointConnectionError"), file_table, []) /\
  upload_course_file unit (list (string * string)) upload_none Sql.sqlite
                     course_table file_table [] 2 (PInt 9)
                     7 slides None None None
  = (Raise TypeError, file_table, [("Courses/7", "%PDF-1.7")]) /\
  upload_course_file unit (list (string * string)) upload_short Sql.sqlite
                     course_table file_table [] 2 (PInt 9)
                     7 slides None None None
  = (Raise (OtherException "KeyError"), file_table,
     [("Courses/7", "%PDF-1.7")]).
Proof.
  assert (is_Some (course_table !! 7)) as Hc by (now exists tt).
  split; [|split; [|split; [|split]]].
  - exact (proj1 (upload_failures unit (list (string * string)) upload_ok
                    Sql.sqlite course_table file_table [] 2 (PInt 9) 8
                    slides None None None) eq_refl eq_refl).
  - exact (proj1 (proj2 (upload_failures unit (list (string * string))
                    upload_ok Sql.sqlite course_table file_table [] 2
                    (PInt 9) (2 ^ 63) slides None None None))
             eq_refl eq_refl).
  - exact (proj1 (proj1 (proj2 (proj2 (upload_failures unit
                    (list (string * string)) upload_down Sql.sqlite
                    course_table file_table [] 2 (PInt 9) 7 slides
                    None None None))) Hc []) _ eq_refl).
  - refine (proj1 (proj2 (proj1 (proj2 (proj2 (upload_failures unit
                    (list (string * string)) upload_none Sql.sqlite
                    course_table file_table [] 2 (PInt 9) 7 slides
                    None None None))) Hc [("Courses/7", "%PDF-1.7")]))
              PNone eq_refl _).
    intros d H; discriminate H.
  - refine (proj2 (proj2 (proj1 (proj2 (proj2 (upload_failures unit
                    (list (string * string)) upload_short Sql.sqlite
                    course_table file_table [] 2 (PInt 9) 7 slides
                    None None None))) Hc [("Courses/7", "%PDF-1.7")]))
              [("file_url", PStr "Courses/7")] eq_refl _).
    now left.
Defined.

Lemma upload_course_file_ok_witness :
  exists row files',
    upload_course_file unit (list (string * string)) upload_ok Sql.sqlite
                       course_table file_table [] 2 (PInt 9)
                       7 slides (Some "") None None
    = (Return (2, row), files', [("Courses/7", "%PDF-1.7")]) /\
    files' !! 2 = Some row /\
    file_type row = PStr "PDF" /\
    file_title row = PStr "slides.pdf".
Proof.
  destruct (upload_course_file_ok unit (list (string * string)) upload_ok
              not_before Sql.sqlite course_table file_table []
              [("Courses/7", "%PDF-1.7")] 2 (PInt 9) 7 slides
              (Some "") None None tt
              [("file_size", PInt 8);
               ("content_type", PStr "application/pdf");
               ("file_url", PStr "Courses/7")]
              (PInt 8) (PStr "application/pdf") (PStr "Courses/7")
              eq_refl eq_refl eq_refl eq_refl eq_refl eq_refl)
    as (row & files' & H1 & H2 & _ & _ & _ & _ & _ & _ & _ & H3 & _ & H4 & _).
  exists row, files'. split; [exact H1|]. split; [exact H2|].
  split; [exact H3|]. apply H4. now right.
Defined.

Lemma folder_of_injective_witness : folder_of 7 <> folder_of 71.
Proof.
  apply (folder_of_injective 7 71). intros H; discriminate H.
Defined.

Lemma upload_keeps_files_attached_witness :
  is_Some (course_table !! course_id slides_row).
Proof.
  apply (upload_keeps_files_attached unit (list (string * string)) upload_ok
           Sql.sqlite course_table file_table [] 2 (PInt 9) 7 slides
           None None None)
    with (i := 1).
  - intros i f H. unfold file_table in H.
    apply lookup_insert_Some in H as [[_ <-]|[_ H]];
      [now exists tt | rewrite lookup_empty in H; discriminate H].
  - reflexivity.
Defined.

End CourseFileSamples.

Section AdminCoursesSamples.
Import CollegeAdminCourses ServiceSamples.

Lemma admin_courses_resolved_witness :
  exists rows,
    get_admin_courses_for_college same_value not_before
      ("CollegeAdmin" :: course_file_service_globals) admins course_rows
      (PDict [("id", PInt 42)])
    = Return (PDict
        [ ("college_id", PInt 1);
          ("total_courses", PInt (Z.of_nat (List.length rows)));
          ("courses", PList (map course_entry rows)) ]).
Proof.
  destruct (admin_courses_resolved same_value not_before
              ("CollegeAdmin" :: course_file_service_globals)
              admins course_rows [("id", PInt 42)] (PInt 42))
    as [_ H]; [simpl; tauto | simpl; tauto | simpl; tauto | simpl; tauto
              | reflexivity |].
  destruct (H 1 {| admin_user_id := PInt 42; admin_college_id := PInt 1 |})
    as (rows & Hrows & _); [reflexivity | reflexivity | |].
  - intros k' a' Hk' _. unfold admins in Hk'.
    apply lookup_insert_Some in Hk' as [[<- _]|[_ Hk']];
      [reflexivity | rewrite lookup_empty in Hk'; discriminate Hk'].
  - exists rows. exact Hrows.
Defined.

End AdminCoursesSamples.
